(** * Stock-Market dashboard: the quote fetcher of [app.py]

    A shallow embedding of [get_stock_data] (app.py, lines 10-65) together
    with the three library facilities it leans on:

    - [requests.get] / [raise_for_status]: the network is an oracle from the
      requested URL to a [Response]; every call is recorded in the world;
    - [pandas]: a [DataFrame] is a list of column labels and a list of rows
      (index, cells); [from_dict], [rename], [astype], [to_datetime] and
      [sort_index] are written out on that representation;
    - [st.cache_data(ttl=3600)]: a finite map from the call's arguments to
      the stored return value, the elements to replay and the time of
      storage; the clock is passed to every call.

    The module global [API_KEY] is read by the body at every call, so the
    body is written over the value read ([get_stock_data_with]) and
    [get_stock_data] is that body at the constant the script assigns. *)

From Stdlib Require Import ZArith QArith String Ascii List Sorted Permutation Lia Bool.
From stdpp Require Import base strings gmap list.

Local Open Scope Z_scope.
Local Open Scope string_scope.

(** ** Configuration (app.py, line 10) *)

Definition API_KEY : string := "IOPOMGZYQH86ES0Z".

(** ** Python dictionaries

    A [dict] keeps its items in insertion order; keys are pairwise
    distinct.  [k in d] is [dict_in], [d[k]] is [dict_get] ([None] stands
    for [KeyError]). *)

Definition dict (V : Type) : Type := list (string * V).

Fixpoint dict_get {V : Type} (k : string) (d : dict V) : option V :=
  match d with
  | [] => None
  | (k', v) :: d' => if String.eqb k k' then Some v else dict_get k d'
  end.

Definition dict_in {V : Type} (k : string) (d : dict V) : bool :=
  match dict_get k d with Some _ => true | None => false end.

Definition keys {V : Type} (d : dict V) : list string := map fst d.

Definition dict_wf {V : Type} (d : dict V) : Prop := NoDup (keys d).

(** [sub in s] on Python strings: [sub] occurs somewhere in [s]. *)
Fixpoint contains (sub s : string) : bool :=
  String.prefix sub s
  || match s with
     | EmptyString => false
     | String _ s' => contains sub s'
     end.

(** ** Provider payloads

    The decoded JSON body is a top-level object whose values are a string
    (the provider's ["Error Message"] / ["Note"] texts and the like), a
    flat object of strings (the provider's ["Meta Data"]) or a mapping from
    timestamp strings to records of string fields (the time series). *)

Definition Bar : Type := dict string.
Definition TimeSeries : Type := dict Bar.

Inductive Value : Type :=
| VStr (s : string)
| VObject (fields : dict string)
| VSeries (ts : TimeSeries).

Definition Payload : Type := dict Value.

(** A decoded JSON value, as an item of an array. *)
#[local] Set Warnings "-register-all".
Inductive Json : Type :=
| JNull
| JBool (b : bool)
| JNumber (literal : string)
| JString (s : string)
| JArray (items : list Json)
| JObject (members : list (string * Json)).

(** A decoded body that is not an object. *)
Inductive Body : Type :=
| BNull
| BBool (b : bool)
| BNumber (literal : string)
| BString (s : string)
| BArray (items : list Json).

(** What [requests.get(url)] comes back with: a transport failure
    (connection error, timeout, ...) or a response with a status code and
    a body.  [response.json()] decodes the body to a JSON object (a
    payload) or to another JSON value, or fails on a body that is not
    JSON: with a [JSONDecodeError] that is a [RequestException] from
    requests 2.27 on and a plain [ValueError] before, which
    [request_exception] tells. *)
Inductive Response : Type :=
| Failed (cause : string)
| Responded (status : Z) (body : Payload)
| RespondedOther (status : Z) (body : Body)
| Undecodable (status : Z) (request_exception : bool).

(** ** Exceptions

    The two [except] clauses of [get_stock_data] separate
    [requests.exceptions.RequestException] from every other [Exception]. *)

Inductive Exception : Type :=
| ConnectionError (cause : string)
| HTTPError (status : Z)
| JSONDecodeError (request_exception : bool)
| KeyError
| AttributeError
| ValueError
| TypeError.

Definition is_RequestException (e : Exception) : bool :=
  match e with
  | ConnectionError _ | HTTPError _ => true
  | JSONDecodeError request_exception => request_exception
  | KeyError | AttributeError | ValueError | TypeError => false
  end.

Inductive Exc (A : Type) : Type :=
| Ok (a : A)
| Raise (e : Exception).
Arguments Ok {A} a.
Arguments Raise {A} e.

Definition bind {A B : Type} (m : Exc A) (k : A -> Exc B) : Exc B :=
  match m with
  | Ok a => k a
  | Raise e => Raise e
  end.

Notation "'let!' x ':=' m 'in' k" := (bind m (fun x => k))
  (at level 10, x name, m at level 100, k at level 200).

Fixpoint mapE {A B : Type} (f : A -> Exc B) (l : list A) : Exc (list B) :=
  match l with
  | [] => Ok []
  | a :: l' => let! b := f a in let! bs := mapE f l' in Ok (b :: bs)
  end.

(** ** What the page shows

    The texts handed to [st.error] and [st.warning], one constructor per
    f-string of the function (two for the f-strings of lines 37 and 44,
    which print the body whether it is an object or not). *)

Inductive Text : Type :=
| KeyNotSet
| ApiError (message : Value)
| ApiNote (note : Value)
| CouldNotFetch (symbol : string) (data : Payload)
| NoTimeSeries (symbol : string) (data : Payload)
| CouldNotFetchBody (symbol : string) (data : Body)
| NoTimeSeriesBody (symbol : string) (data : Body)
| NetworkError (e : Exception)
| UnexpectedError (e : Exception).

Inductive Element : Type :=
| st_error (t : Text)
| st_warning (t : Text).

(** ** Data frames *)

Record DataFrame (I A : Type) : Type := mkDataFrame {
  columns : list string;
  rows : list (I * list A)
}.
Arguments mkDataFrame {I A} columns rows.
Arguments columns {I A} d.
Arguments rows {I A} d.

Definition index {I A : Type} (df : DataFrame I A) : list I := map fst (rows df).

(** The cell under column [c] among the cells of a row, if the frame has
    that column. *)
Fixpoint cell_at {A : Type} (c : string) (cols : list string) (cells : list A) : option A :=
  match cols, cells with
  | c' :: cols', a :: cells' => if String.eqb c c' then Some a else cell_at c cols' cells'
  | _, _ => None
  end.

(** The value of row number [n] under column [c]. *)
Definition quote_field {I A : Type} (df : DataFrame I (option A)) (n : nat) (c : string)
  : option A :=
  match nth_error (rows df) n with
  | Some r => match cell_at c (columns df) (snd r) with Some a => a | None => None end
  | None => None
  end.

(** [pd.DataFrame.from_dict(time_series, orient='index')]: one row per
    item, in insertion order.  For a mapping of records the columns are
    the field names in order of first appearance and a field a record
    lacks is a missing cell; a record without fields still gives its row.
    For a non-empty mapping of scalars there is the single column pandas
    labels 0.  A string has no items to iterate ([AttributeError]); the
    empty string is refused by the constructor ([ValueError]). *)

Definition add_new (l : list string) (x : string) : list string :=
  if existsb (String.eqb x) l then l else l ++ [x].

(** The members of the lists of [ls], each once, in order of first
    appearance. *)
Definition union_all (ls : list (list string)) : list string :=
  fold_left (fun acc l => fold_left add_new l acc) ls [].

Definition union_columns (ts : TimeSeries) : list string :=
  union_all (map (fun item => keys (snd item)) ts).

Definition from_dict (v : Value) : Exc (DataFrame string (option string)) :=
  match v with
  | VStr EmptyString => Raise ValueError
  | VStr (String _ _) => Raise AttributeError
  | VObject [] => Ok (mkDataFrame [] [])
  | VObject fields =>
      Ok (mkDataFrame ["0"] (map (fun item => (fst item, [Some (snd item)])) fields))
  | VSeries ts =>
      let cols := union_columns ts in
      Ok (mkDataFrame cols
            (map (fun item => (fst item, map (fun c => dict_get c (snd item)) cols)) ts))
  end.

(** [df.rename(columns={...})] (lines 49-55). *)
Definition rename_column (c : string) : string :=
  if String.eqb c "1. open" then "open"
  else if String.eqb c "2. high" then "high"
  else if String.eqb c "3. low" then "low"
  else if String.eqb c "4. close" then "close"
  else if String.eqb c "5. volume" then "volume"
  else c.

Definition rename {I A : Type} (df : DataFrame I A) : DataFrame I A :=
  mkDataFrame (map rename_column (columns df)) (rows df).

(** [df.sort_index(ascending=True)] on a datetime index: rows in ascending
    order of their index.  pandas does not fix the relative order of rows
    with equal index; the insertion below keeps them in frame order. *)

Fixpoint insert_row {A : Type} (r : Z * A) (l : list (Z * A)) : list (Z * A) :=
  match l with
  | [] => [r]
  | x :: l' => if Z.leb (fst r) (fst x) then r :: x :: l' else x :: insert_row r l'
  end.

Definition sort_rows {A : Type} (l : list (Z * A)) : list (Z * A) :=
  fold_right insert_row [] l.

Definition sort_index {A : Type} (df : DataFrame Z A) : DataFrame Z A :=
  mkDataFrame (columns df) (sort_rows (rows df)).

(** ** The fetcher

    [float(s)] (behind [astype(float)]) and the parse of one index label
    (behind [pd.to_datetime]) are the two library conversions of strings;
    the fetcher is written over them.  A parsed timestamp is an integer
    count of nanoseconds since the epoch, as pandas stores it. *)

Section Fetcher.

Context {F : Type}.
Variable float_of_str : string -> option F.
Variable datetime_of_str : string -> option Z.

(** The frame returned: a datetime index over numeric cells, where
    [None] is NaN, the value of a missing cell. *)
Definition Quotes : Type := DataFrame Z (option F).

(** [df.astype(float)] (line 56): every cell, whatever its column. *)
Definition astype_float_cell (c : option string) : Exc (option F) :=
  match c with
  | None => Ok None
  | Some s =>
      match float_of_str s with
      | Some f => Ok (Some f)
      | None => Raise ValueError
      end
  end.

Definition astype_float {I : Type} (df : DataFrame I (option string))
  : Exc (DataFrame I (option F)) :=
  let! rs := mapE (fun r => let! cs := mapE astype_float_cell (snd r) in Ok (fst r, cs))
                  (rows df) in
  Ok (mkDataFrame (columns df) rs).

(** [df.index = pd.to_datetime(df.index)] (line 57). *)
Definition to_datetime_label {A : Type} (r : string * A) : Exc (Z * A) :=
  match datetime_of_str (fst r) with
  | Some t => Ok (t, snd r)
  | None => Raise ValueError
  end.

Definition to_datetime {A : Type} (df : DataFrame string A) : Exc (DataFrame Z A) :=
  let! rs := mapE to_datetime_label (rows df) in
  Ok (mkDataFrame (columns df) rs).

(** Lines 47-59: from the time-series mapping to the returned frame. *)
Definition normalize (time_series : Value) : Exc Quotes :=
  let! df := from_dict time_series in
  let df := rename df in
  let! df := astype_float df in
  let! df := to_datetime df in
  Ok (sort_index df).

(** [response.raise_for_status()] (line 27): 4xx and 5xx raise. *)
Definition raise_for_status (status : Z) : Exc unit :=
  if ((400 <=? status) && (status <? 600))%Z then Raise (HTTPError status) else Ok tt.

(** Lines 32-37: what is shown for a payload without the 5-minute key. *)
Definition classify (symbol : string) (data : Payload) : list Element :=
  match dict_get "Error Message" data with
  | Some m => [st_error (ApiError m)]
  | None =>
      match dict_get "Note" data with
      | Some n => [st_warning (ApiNote n)]
      | None => [st_error (CouldNotFetch symbol data)]
      end
  end.

(** Line 42: the first key whose name contains "Time Series". *)
Definition time_series_key (data : Payload) : option string :=
  List.find (contains "Time Series") (keys data).

(** What iterating a string gives: its characters, as strings. *)
Fixpoint characters (s : string) : list string :=
  match s with
  | EmptyString => []
  | String c s' => String c EmptyString :: characters s'
  end.

(** [s == item] for a string [s]: only a string equals a string. *)
Definition equals_str (s : string) (item : Json) : bool :=
  match item with
  | JString t => String.eqb s t
  | _ => false
  end.

(** [s in items] on a list: some item equals [s]. *)
Definition in_list (s : string) (items : list Json) : bool := existsb (equals_str s) items.

(** ["Time Series" in key] for an item of a list (line 42): the substring
    test on a string, membership in a list, key membership in an object,
    and a [TypeError] on a number, a boolean or null. *)
Definition in_item (sub : string) (key : Json) : Exc bool :=
  match key with
  | JString t => Ok (contains sub t)
  | JArray items => Ok (in_list sub items)
  | JObject members => Ok (existsb (String.eqb sub) (keys members))
  | JNull | JBool _ | JNumber _ => Raise TypeError
  end.

(** Line 42 over the items of a list. *)
Fixpoint first_item (sub : string) (items : list Json) : Exc (option Json) :=
  match items with
  | [] => Ok None
  | key :: items' =>
      let! found := in_item sub key in
      if found then Ok (Some key) else first_item sub items'
  end.

(** Lines 31-47 when [data] is not an object.  On a string [in] is the
    substring test and line 42 scans the characters; on a list [in] is
    membership and line 42 scans the items; [data[...]] with anything but
    an integer between the brackets is a [TypeError] on both; on a
    number, a boolean or null the [in] of line 31 is a [TypeError]. *)
Definition on_body {A : Type} (symbol : string) (data : Body)
  : Exc (list Element * option A) :=
  match data with
  | BNull | BBool _ | BNumber _ => Raise TypeError
  | BString text =>
      if negb (contains "Time Series (5min)" text) then
        if contains "Error Message" text then Raise TypeError
        else if contains "Note" text then Raise TypeError
        else Ok ([st_error (CouldNotFetchBody symbol data)], None)
      else
        match List.find (contains "Time Series") (characters text) with
        | None => Ok ([st_error (NoTimeSeriesBody symbol data)], None)
        | Some _ => Raise TypeError
        end
  | BArray items =>
      if negb (in_list "Time Series (5min)" items) then
        if in_list "Error Message" items then Raise TypeError
        else if in_list "Note" items then Raise TypeError
        else Ok ([st_error (CouldNotFetchBody symbol data)], None)
      else
        let! time_series_key := first_item "Time Series" items in
        match time_series_key with
        | None => Ok ([st_error (NoTimeSeriesBody symbol data)], None)
        | Some _ => Raise TypeError
        end
  end.

(** Lines 26-59, the body of the [try]: the elements shown and the value
    returned, or the exception that escapes. *)
Definition try_block (symbol : string) (response : Response)
  : Exc (list Element * option Quotes) :=
  match response with
  | Failed cause => Raise (ConnectionError cause)
  | Responded status data =>
      let! _ := raise_for_status status in
      if negb (dict_in "Time Series (5min)" data) then
        Ok (classify symbol data, None)
      else
        match time_series_key data with
        | None => Ok ([st_error (NoTimeSeries symbol data)], None)
        | Some k =>
            let! time_series :=
              match dict_get k data with
              | Some v => Ok v
              | None => Raise KeyError
              end in
            let! df := normalize time_series in
            Ok ([], Some df)
        end
  | RespondedOther status data =>
      let! _ := raise_for_status status in
      on_body symbol data
  | Undecodable status request_exception =>
      let! _ := raise_for_status status in
      Raise (JSONDecodeError request_exception)
  end.

(** Lines 60-65, the two [except] clauses. *)
Definition except (r : Exc (list Element * option Quotes))
  : list Element * option Quotes :=
  match r with
  | Ok out => out
  | Raise e =>
      if is_RequestException e then ([st_error (NetworkError e)], None)
      else ([st_error (UnexpectedError e)], None)
  end.

(** Line 24. *)
Definition query_url (api_key symbol interval : string) : string :=
  "https://www.alphavantage.co/query?function=" +:+ "TIME_SERIES_INTRADAY"
  +:+ "&symbol=" +:+ symbol +:+ "&interval=" +:+ interval
  +:+ "&outputsize=compact&apikey=" +:+ api_key.

(** One execution of the undecorated function: the elements it shows,
    the value it returns and the URLs it requests. *)
Record Run : Type := mkRun {
  shown : list Element;
  returned : option Quotes;
  requested : list string
}.

(** Line 18: [not API_KEY or API_KEY == 'IOPOMGZYQH86ES0Z']. *)
Definition key_not_set (api_key : string) : bool :=
  String.eqb api_key "" || String.eqb api_key "IOPOMGZYQH86ES0Z".

(** Lines 17-65, with the global [API_KEY] read as [api_key]. *)
Definition run (api_key : string) (net : string -> Response) (symbol interval : string)
  : Run :=
  if key_not_set api_key then
    mkRun [st_error KeyNotSet] None []
  else
    let url := query_url api_key symbol interval in
    let out := except (try_block symbol (net url)) in
    mkRun (fst out) (snd out) [url].

(** ** [@st.cache_data(ttl=3600)]

    The cache is keyed by the arguments as the caller passed them (an
    omitted [interval] is not the same key as an explicit one).  It stores
    whatever the function returned, [None] included, together with the
    elements the function showed, which a hit shows again.  An entry
    stored at [t] is served while the clock reads less than [t + ttl]. *)

Definition ttl : Z := 3600.

Record Entry : Type := mkEntry {
  value : option Quotes;
  replay : list Element;
  stored_at : Z
}.

Definition is_fresh (e : Entry) (now : Z) : bool := (now <? stored_at e + ttl)%Z.

Record World : Type := mkWorld {
  cache : gmap (string * option string) Entry;
  screen : list Element;
  network : list string
}.

Definition start : World := mkWorld ∅ [] [].

Definition cache_read (w : World) (k : string * option string) (now : Z) : option Entry :=
  match cache w !! k with
  | Some e => if is_fresh e now then Some e else None
  | None => None
  end.

(** Line 16: the default of the second parameter. *)
Definition default_interval : string := "5min".

Definition get_stock_data_with (api_key : string) (net : string -> Response) (now : Z)
    (symbol : string) (interval : option string) (w : World) : option Quotes * World :=
  match cache_read w (symbol, interval) now with
  | Some e => (value e, mkWorld (cache w) (screen w ++ replay e) (network w))
  | None =>
      let r := run api_key net symbol (default default_interval interval) in
      (returned r,
       mkWorld (<[(symbol, interval) := mkEntry (returned r) (shown r) now]> (cache w))
               (screen w ++ shown r)
               (network w ++ requested r))
  end.

(** The function of the script: the body at the assigned key. *)
Definition get_stock_data : (string -> Response) -> Z -> string -> option string ->
                            World -> option Quotes * World :=
  get_stock_data_with API_KEY.

(** A session of the page: the calls it makes, one after the other,
    each with the state of the network and the reading of the clock at
    that moment. *)
Record Call : Type := mkCall {
  net_of : string -> Response;
  at_time : Z;
  symbol_of : string;
  interval_of : option string
}.

Fixpoint session (api_key : string) (cs : list Call) (w : World)
  : list (option Quotes) * World :=
  match cs with
  | [] => ([], w)
  | c :: cs' =>
      let out := get_stock_data_with api_key (net_of c) (at_time c)
                                     (symbol_of c) (interval_of c) w in
      let rest := session api_key cs' (snd out) in
      (fst out :: fst rest, snd rest)
  end.

(** A world in which nothing was ever requested and the cache holds no
    frame. *)
Definition quiet (w : World) : Prop :=
  network w = [] /\ forall k e, cache w !! k = Some e -> value e = None.

(** A time series every label and every field of which converts. *)
Definition cell_ok (c : option string) : bool :=
  match c with
  | None => true
  | Some s => match float_of_str s with Some _ => true | None => false end
  end.

Definition bar_ok (bar : Bar) : bool :=
  forallb (fun field => cell_ok (dict_get field bar)) (keys bar).

Definition label_ok (label : string) : bool :=
  match datetime_of_str label with Some _ => true | None => false end.

Definition entry_ok (item : string * Bar) : bool :=
  label_ok (fst item) && bar_ok (snd item).

Definition series_ok (ts : TimeSeries) : bool := forallb entry_ok ts.

(** What a cell and a label become when they convert. *)
Definition float_cell (c : option string) : option F := c ≫= float_of_str.
Definition stamp (label : string) : Z := default 0 (datetime_of_str label).

(** The rows of the frame before sorting: one per item of the series,
    in the order of the payload. *)
Definition converted_rows (ts : TimeSeries) : list (Z * list (option F)) :=
  map (fun item =>
         (stamp (fst item),
          map (fun c => float_cell (dict_get c (snd item))) (union_columns ts)))
      ts.

End Fetcher.

(** ** The page (app.py, line 78 and lines 94-166)

    The script reads the symbol from a text box and upper-cases it, reads
    the chart type from a two-option radio and the volume switch from a
    check box, calls [get_stock_data] with the symbol alone, and then
    shows the latest bar as five metrics, a chart and the last ten rows,
    or a warning, or (no symbol) an info line.  An exception of the script
    is not caught: the page keeps what was shown before it.  The page
    furniture that does not depend on the data (title, sidebar texts) is
    left out, and a metric carries the number rather than its formatted
    text. *)

(** [str.upper()] on ASCII letters; every other byte is kept. *)
Definition upper_char (c : ascii) : ascii :=
  let n := nat_of_ascii c in
  if ((97 <=? n) && (n <=? 122))%nat then ascii_of_nat (n - 32) else c.

Fixpoint upper (s : string) : string :=
  match s with
  | EmptyString => EmptyString
  | String c s' => String (upper_char c) (upper s')
  end.

(** The two options of the radio (line 82). *)
Inductive ChartType : Type :=
| Candlestick
| LineChart.

Record Inputs : Type := mkInputs {
  symbol_text : string;
  chart_type : ChartType;
  show_volume : bool
}.

(** What escapes from lines 103-115: a column the latest row does not
    have ([KeyError]), a column it has more than once (the lookup gives a
    series, which neither the format nor [int] accepts: [TypeError]), a
    volume [int] cannot convert ([ValueError] for NaN, [OverflowError]
    for an infinity). *)
Inductive ScriptError : Type :=
| ScriptKeyError (column : string)
| ScriptTypeError (column : string)
| ScriptIntError.

(** [df.tail(n)]: the last [n] items. *)
Definition tail {A : Type} (n : nat) (l : list A) : list A :=
  skipn (length l - n) l.

(** The cells of a row that stand under the label [c]. *)
Definition selected {A : Type} (c : string) (cols : list string) (cells : list A) : list A :=
  map snd (List.filter (fun p => String.eqb c (fst p)) (combine cols cells)).

(** [latest_data[c]]. *)
Definition loc {A : Type} (c : string) (cols : list string) (cells : list A)
  : ScriptError + A :=
  match selected c cols cells with
  | [] => inl (ScriptKeyError c)
  | [a] => inr a
  | _ :: _ :: _ => inl (ScriptTypeError c)
  end.

(** [stock_data[c]], read where the column is known to be there once
    (after the metrics): the cell of each row under [c]. *)
Definition column {I A : Type} (c : string) (df : DataFrame I (option A)) : list (option A) :=
  map (fun r => match selected c (columns df) (snd r) with
                | v :: _ => v
                | [] => None
                end)
      (rows df).

Section Dashboard.

Context {F : Type}.
Variable float_of_str : string -> option F.
Variable datetime_of_str : string -> option Z.

(** [int(x)] on a float: [None] when it raises (NaN, infinities). *)
Variable int_of_float : F -> option Z.

Inductive MetricValue : Type :=
| Dollars (v : option F)
| Count (n : Z).

Inductive Trace : Type :=
| CandlestickTrace (x : list Z) (o h l c : list (option F))
| ScatterTrace (x : list Z) (y : list (option F))
| BarTrace (x : list Z) (y : list (option F)).

Record Figure : Type := mkFigure {
  traces : list Trace;
  yaxis2 : bool;
  title_text : string
}.

Inductive Widget : Type :=
| header (symbol : string)
| subheader (text : string)
| metric (label : string) (v : MetricValue)
| plotly_chart (fig : Figure)
| dataframe (df : Quotes (F:=F))
| no_data_warning (symbol : string)
| enter_symbol_info.

Definition is_metric (wd : Widget) : Prop := exists l v, wd = metric l v.

(** What a run of the script itself shows, and the exception that ended
    it, if any.  What [get_stock_data] shows on the way ([st.error],
    [st.warning]) is on the screen of the world. *)
Record Page : Type := mkPage {
  widgets : list Widget;
  raised : option ScriptError
}.

(** Lines 106-113: the four prices of the latest row, in order. *)
Definition price_labels : list (string * string) :=
  [("Open", "open"); ("High", "high"); ("Low", "low"); ("Close", "close")].

Fixpoint price_metrics (ms : list (string * string)) (cols : list string)
    (latest : list (option F)) : list Widget * option ScriptError :=
  match ms with
  | [] => ([], None)
  | m :: ms' =>
      match loc (snd m) cols latest with
      | inl e => ([], Some e)
      | inr v =>
          let rest := price_metrics ms' cols latest in
          (metric (fst m) (Dollars v) :: fst rest, snd rest)
      end
  end.

(** Lines 114-115: [int(latest_data['volume'])]. *)
Definition volume_metric (cols : list string) (latest : list (option F))
  : list Widget * option ScriptError :=
  match loc "volume" cols latest with
  | inl e => ([], Some e)
  | inr None => ([], Some ScriptIntError)
  | inr (Some f) =>
      match int_of_float f with
      | Some n => ([metric "Volume" (Count n)], None)
      | None => ([], Some ScriptIntError)
      end
  end.

(** Lines 119-158. *)
Definition figure (chart : ChartType) (volume : bool) (symbol : string) (df : Quotes)
  : Figure :=
  mkFigure
    (match chart with
     | Candlestick =>
         CandlestickTrace (index df) (column "open" df) (column "high" df)
                          (column "low" df) (column "close" df)
     | LineChart => ScatterTrace (index df) (column "close" df)
     end
     :: (if volume then [BarTrace (index df) (column "volume" df)] else []))
    volume
    (symbol +:+ " Intraday Price Chart").

(** Lines 103-162, for a frame that is not empty and its last row. *)
Definition show_data (chart : ChartType) (volume : bool) (symbol : string)
    (df : Quotes) (latest : Z * list (option F)) : Page :=
  let prices := price_metrics price_labels (columns df) (snd latest) in
  match snd prices with
  | Some e => mkPage (subheader "Current Financial Indicators" :: fst prices) (Some e)
  | None =>
      let vol := volume_metric (columns df) (snd latest) in
      match snd vol with
      | Some e =>
          mkPage (subheader "Current Financial Indicators" :: fst prices ++ fst vol)
                 (Some e)
      | None =>
          mkPage (subheader "Current Financial Indicators" :: fst prices ++ fst vol
                  ++ [subheader "Historical Price Movement (5-minute intervals)";
                      plotly_chart (figure chart volume symbol df);
                      subheader "Raw Data Preview (Last 10 entries)";
                      dataframe (mkDataFrame (columns df) (tail 10 (rows df)))])
                 None
      end
  end.

(** Lines 101-164: [stock_data is not None and not stock_data.empty]; a
    frame is empty when it has no row or no column. *)
Definition show_result (chart : ChartType) (volume : bool) (symbol : string)
    (stock_data : option Quotes) : Page :=
  match stock_data with
  | Some df =>
      match last (rows df), columns df with
      | Some latest, _ :: _ => show_data chart volume symbol df latest
      | _, _ => mkPage [no_data_warning symbol] None
      end
  | None => mkPage [no_data_warning symbol] None
  end.

(** Lines 78 and 94-166, with the global [API_KEY] read as [api_key]. *)
Definition dashboard_with (api_key : string) (inputs : Inputs)
    (net : string -> Response) (now : Z) (w : World) : Page * World :=
  let selected_symbol_input := upper (symbol_text inputs) in
  if String.eqb selected_symbol_input "" then
    (mkPage [enter_symbol_info] None, w)
  else
    let out := get_stock_data_with float_of_str datetime_of_str api_key net now
                                   selected_symbol_input None w in
    let page := show_result (chart_type inputs) (show_volume inputs)
                            selected_symbol_input (fst out) in
    (mkPage (header selected_symbol_input :: widgets page) (raised page), snd out).

(** The page of the script. *)
Definition dashboard : Inputs -> (string -> Response) -> Z -> World -> Page * World :=
  dashboard_with API_KEY.

End Dashboard.

(** ** The two string conversions, for the provider's formats

    The provider writes prices and volumes as plain decimals
    (["10.0"], ["1000"]) and index labels as ["YYYY-MM-DD HH:MM:SS"].
    [decimal_of_str] reads an optionally signed decimal and denotes it by
    the rational it writes ([float] rounds that rational to the nearest
    double); [iso_datetime] reads a label, with an optional fraction of a
    second, range-checks its fields and counts nanoseconds since
    1970-01-01T00:00:00.  Anything else is rejected. *)

Definition digit_of (c : ascii) : option Z :=
  let n := Z.of_nat (nat_of_ascii c) in
  if ((48 <=? n) && (n <=? 57))%Z then Some (n - 48) else None.

(** Reads the longest run of digits: its value, its length, the rest. *)
Fixpoint read_digits (s : string) (acc : Z) (len : nat) : Z * nat * string :=
  match s with
  | String c s' =>
      match digit_of c with
      | Some d => read_digits s' (10 * acc + d) (S len)
      | None => (acc, len, s)
      end
  | EmptyString => (acc, len, s)
  end.

Definition unsigned_decimal (s : string) : option Q :=
  let '(i, ni, rest) := read_digits s 0 0%nat in
  match rest with
  | EmptyString => if (0 <? ni)%nat then Some (inject_Z i) else None
  | String "."%char rest' =>
      let '(f, nf, rest'') := read_digits rest' 0 0%nat in
      match rest'' with
      | EmptyString =>
          if (0 <? ni + nf)%nat
          then Some (Qred (Qmake (i * 10 ^ Z.of_nat nf + f) (Z.to_pos (10 ^ Z.of_nat nf))))
          else None
      | String _ _ => None
      end
  | String _ _ => None
  end.

Definition decimal_of_str (s : string) : option Q :=
  match s with
  | String "-"%char s' => Qopp <$> unsigned_decimal s'
  | String "+"%char s' => unsigned_decimal s'
  | _ => unsigned_decimal s
  end.

(** Exactly [n] digits. *)
Fixpoint take_digits (n : nat) (s : string) (acc : Z) : option (Z * string) :=
  match n with
  | O => Some (acc, s)
  | S n' =>
      match s with
      | String c s' => d ← digit_of c; take_digits n' s' (10 * acc + d)
      | EmptyString => None
      end
  end.

Definition expect (c : ascii) (s : string) : option string :=
  match s with
  | String c' s' => if Ascii.eqb c c' then Some s' else None
  | EmptyString => None
  end.

Definition is_leap (y : Z) : bool :=
  ((y mod 4 =? 0) && (negb (y mod 100 =? 0) || (y mod 400 =? 0)))%Z.

Definition days_in_month (y m : Z) : Z :=
  if (m =? 2)%Z then (if is_leap y then 29 else 28)
  else if ((m =? 4) || (m =? 6) || (m =? 9) || (m =? 11))%Z then 30
  else 31.

(** Days from 1970-01-01 to the civil date [y]-[m]-[d]. *)
Definition days_from_civil (y m d : Z) : Z :=
  let y' := if (m <=? 2)%Z then y - 1 else y in
  let era := y' / 400 in
  let yoe := y' - era * 400 in
  let doy := (153 * (if (2 <? m)%Z then m - 3 else m + 9) + 2) / 5 + d - 1 in
  let doe := yoe * 365 + yoe / 4 - yoe / 100 + doy in
  era * 146097 + doe - 719468.

Definition timestamp (y mo d h mi s ns : Z) : Z :=
  ((days_from_civil y mo d * 86400 + h * 3600 + mi * 60 + s) * 1000000000 + ns)%Z.

(** The fraction of a second: absent, or a dot and one to nine digits. *)
Definition fraction_ns (s : string) : option Z :=
  match s with
  | EmptyString => Some 0
  | String "."%char s' =>
      let '(f, nf, rest) := read_digits s' 0 0%nat in
      match rest with
      | EmptyString =>
          if ((0 <? nf) && (nf <=? 9))%nat then Some (f * 10 ^ Z.of_nat (9 - nf)) else None
      | String _ _ => None
      end
  | String _ _ => None
  end.

Definition iso_datetime (s : string) : option Z :=
  '(y, s) ← take_digits 4 s 0;
  s ← expect "-" s;
  '(mo, s) ← take_digits 2 s 0;
  s ← expect "-" s;
  '(d, s) ← take_digits 2 s 0;
  s ← expect " " s;
  '(h, s) ← take_digits 2 s 0;
  s ← expect ":" s;
  '(mi, s) ← take_digits 2 s 0;
  s ← expect ":" s;
  '(sec, s) ← take_digits 2 s 0;
  ns ← fraction_ns s;
  if ((1 <=? mo) && (mo <=? 12) && (1 <=? d) && (d <=? days_in_month y mo)
      && (h <? 24) && (mi <? 60) && (sec <? 60))%Z
  then Some (timestamp y mo d h mi sec ns)
  else None.

(** The script's function at these conversions. *)
Definition fetch := get_stock_data decimal_of_str iso_datetime.
Definition fetch_with := get_stock_data_with decimal_of_str iso_datetime.

(** [int] on the rational a decimal writes: truncation toward zero. *)
Definition int_of_decimal (q : Q) : option Z := Some (Z.quot (Qnum q) (Z.pos (Qden q))).

(** The script's page at these conversions. *)
Definition page := dashboard decimal_of_str iso_datetime int_of_decimal.
Definition page_with := dashboard_with decimal_of_str iso_datetime int_of_decimal.

(** Line 10 runs when the script is loaded, in a process environment it
    does not consult. *)
Definition load_API_KEY (environ : gmap string string) : string := API_KEY.

(** ** Sample payloads *)

Definition bar_0935 : Bar :=
  [("1. open", "10.0"); ("2. high", "10.5"); ("3. low", "9.8");
   ("4. close", "10.2"); ("5. volume", "1000")].

Definition bar_0940 : Bar :=
  [("1. open", "10.2"); ("2. high", "10.9"); ("3. low", "10.1");
   ("4. close", "10.7"); ("5. volume", "2500")].

Definition payload_5min : Payload :=
  [("Time Series (5min)", VSeries [("2024-01-02 09:35:00", bar_0935)])].

Definition meta_15min : dict string :=
  [("1. Information", "Intraday (15min) open, high, low, close prices and volume");
   ("2. Symbol", "AAPL"); ("4. Interval", "15min")].

Definition series_15min : TimeSeries :=
  [("2024-01-02 09:45:00", bar_0940); ("2024-01-02 09:30:00", bar_0935)].

Definition payload_15min : Payload :=
  [("Meta Data", VObject meta_15min); ("Time Series (15min)", VSeries series_15min)].

Definition payload_error : Payload :=
  [("Error Message", VStr "Invalid API call.")].

Definition payload_note : Payload :=
  [("Note", VStr "Our standard API call frequency is 5 calls per minute.")].

Definition payload_unknown : Payload :=
  [("Information", VStr "Please contact support.")].

(** Two distinct labels that are the same instant. *)
Definition payload_same_instant : Payload :=
  [("Time Series (5min)",
    VSeries [("2024-01-02 09:35:00.0", bar_0935); ("2024-01-02 09:35:00.00", bar_0940)])].

(** A good bar after an item whose record is empty and whose label is
    no date. *)
Definition series_empty_record : TimeSeries :=
  [("no date", []); ("2024-01-02 09:35:00", bar_0935)].

Definition payload_empty_record : Payload :=
  [("Time Series (5min)", VSeries series_empty_record)].

(** One good bar and one whose volume is not a number. *)
Definition series_malformed : TimeSeries :=
  [("2024-01-02 09:40:00", bar_0940);
   ("2024-01-02 09:35:00",
    [("1. open", "10.0"); ("2. high", "10.5"); ("3. low", "9.8");
     ("4. close", "10.2"); ("5. volume", "n/a")])].

Definition payload_malformed : Payload :=
  [("Time Series (5min)", VSeries series_malformed)].

(** Two bars, newest first, as the provider lists them. *)
Definition series_two_bars : TimeSeries :=
  [("2024-01-02 09:40:00", bar_0940); ("2024-01-02 09:35:00", bar_0935)].

Definition payload_two_bars : Payload :=
  [("Meta Data", VObject [("2. Symbol", "AAPL"); ("4. Interval", "5min")]);
   ("Time Series (5min)", VSeries series_two_bars)].

Definition always (r : Response) : string -> Response := fun _ => r.

(** The same call at three readings of the clock, in seconds. *)
Definition three_calls (net : string -> Response) (t1 t2 t3 : Z) : list Call :=
  [mkCall net t1 "AAPL" None; mkCall net t2 "AAPL" None; mkCall net t3 "AAPL" None].

(** The frame of the one-bar payload. *)
Definition frame_0935 : Quotes (F:=Q) :=
  mkDataFrame ["open"; "high"; "low"; "close"; "volume"]
    [(timestamp 2024 1 2 9 35 0 0,
      [Some (10 # 1); Some (21 # 2); Some (49 # 5); Some (51 # 5); Some (1000 # 1)]%Q)].

(** The frame of the payload whose two labels are the same instant. *)
Definition frame_same_instant : Quotes (F:=Q) :=
  mkDataFrame ["open"; "high"; "low"; "close"; "volume"]
    [(timestamp 2024 1 2 9 35 0 0,
      [Some (10 # 1); Some (21 # 2); Some (49 # 5); Some (51 # 5); Some (1000 # 1)]%Q);
     (timestamp 2024 1 2 9 35 0 0,
      [Some (51 # 5); Some (109 # 10); Some (101 # 10); Some (107 # 10);
       Some (2500 # 1)]%Q)].

(** The frame of the 15-minute payload, had lines 47-59 been reached. *)
Definition frame_15min : Quotes (F:=Q) :=
  mkDataFrame ["open"; "high"; "low"; "close"; "volume"]
    [(timestamp 2024 1 2 9 30 0 0,
      [Some (10 # 1); Some (21 # 2); Some (49 # 5); Some (51 # 5); Some (1000 # 1)]%Q);
     (timestamp 2024 1 2 9 45 0 0,
      [Some (51 # 5); Some (109 # 10); Some (101 # 10); Some (107 # 10);
       Some (2500 # 1)]%Q)].

(** A key that is neither empty nor the one line 18 compares with. *)
Definition other_key : string := "DEMO".

Definition url_AAPL_5min : string :=
  "https://www.alphavantage.co/query?function=TIME_SERIES_INTRADAY&symbol=AAPL&interval=5min&outputsize=compact&apikey=DEMO".

(** The world after a first call that met HTTP status 429. *)
Definition world_after_429 : World (F:=Q) :=
  snd (get_stock_data_with decimal_of_str iso_datetime other_key
         (always (Responded 429 [])) 0 "AAPL" None start).

(** The exception lines 26-27 raise on a response, if any. *)
Definition http_failure (r : Response) : option Exception :=
  match r with
  | Failed cause => Some (ConnectionError cause)
  | Responded status _ | RespondedOther status _ | Undecodable status _ =>
      if ((400 <=? status) && (status <? 600))%Z then Some (HTTPError status) else None
  end.

(** A payload with a note and an error message, the note first. *)
Definition payload_note_and_error : Payload :=
  [("Note", VStr "Our standard API call frequency is 5 calls per minute.");
   ("Error Message", VStr "Invalid API call.")].

(** A payload whose series is the empty mapping. *)
Definition payload_empty_series : Payload :=
  [("Time Series (5min)", VSeries [])].

(** A payload whose two entries have empty records. *)
Definition series_two_empty_records : TimeSeries :=
  [("2024-01-02 09:40:00", []); ("2024-01-02 09:35:00", [])].

Definition payload_two_empty_records : Payload :=
  [("Time Series (5min)", VSeries series_two_empty_records)].

(** The text box holds "aapl"; candlesticks, with volume. *)
Definition inputs_aapl : Inputs := mkInputs "aapl" Candlestick true.

(** The frame of the two-bar payload. *)
Definition frame_two_bars : Quotes (F:=Q) :=
  mkDataFrame ["open"; "high"; "low"; "close"; "volume"]
    [(timestamp 2024 1 2 9 35 0 0,
      [Some (10 # 1); Some (21 # 2); Some (49 # 5); Some (51 # 5); Some (1000 # 1)]%Q);
     (timestamp 2024 1 2 9 40 0 0,
      [Some (51 # 5); Some (109 # 10); Some (101 # 10); Some (107 # 10);
       Some (2500 # 1)]%Q)].

(** The field names of the provider, which line 49 renames. *)
Definition provider_names : list string :=
  ["1. open"; "2. high"; "3. low"; "4. close"; "5. volume"].

(** A frame every row of which has one cell per column. *)
Definition rectangular {I A : Type} (df : DataFrame I A) : Prop :=
  Forall (fun r => length (snd r) = length (columns df)) (rows df).

(** ** Orders on an index *)

Definition ascending (l : list Z) : Prop := StronglySorted Z.le l.
Definition strictly_ascending (l : list Z) : Prop := StronglySorted Z.lt l.

(** A frame as lines 47-59 leave it: sorted, rectangular, renamed. *)
Definition frame_ok {A : Type} (df : DataFrame Z A) : Prop :=
  ascending (index df)
  /\ rectangular df
  /\ (forall c, In c (columns df) -> ~ In c provider_names).

(** A world whose cache holds only such frames. *)
Definition frames_ok {F : Type} (w : World (F:=F)) : Prop :=
  forall k e df, cache w !! k = Some e -> value e = Some df -> frame_ok df.

(** * Properties *)

(** ** Dictionaries and substrings *)

Lemma dict_get_in_keys {V : Type} (k : string) (d : dict V) (v : V) :
  dict_get k d = Some v -> In k (keys d).
Proof.
  induction d as [|[k' v'] d IH]; simpl; [discriminate|].
  destruct (String.eqb k k') eqn:E.
  - apply String.eqb_eq in E. intros _. left. congruence.
  - intros H. right. exact (IH H).
Qed.

Lemma dict_in_true {V : Type} (k : string) (d : dict V) :
  dict_in k d = true <-> exists v, dict_get k d = Some v.
Proof.
  unfold dict_in. destruct (dict_get k d) as [v|]; split.
  - intros _. exists v. reflexivity.
  - reflexivity.
  - discriminate.
  - intros [v Hv]. discriminate.
Qed.

(** ** Sorting the index *)

Section Sorting.

Context {A : Type}.
Implicit Types (r : Z * A) (l : list (Z * A)).

Lemma insert_row_perm r l : Permutation (insert_row r l) (r :: l).
Proof.
  induction l as [|x l IH]; simpl; [reflexivity|].
  destruct (Z.leb (fst r) (fst x)); [reflexivity|].
  rewrite IH. apply perm_swap.
Qed.

Lemma sort_rows_perm l : Permutation (sort_rows l) l.
Proof.
  induction l as [|x l IH]; simpl; [reflexivity|].
  rewrite insert_row_perm. apply perm_skip, IH.
Qed.

Lemma insert_row_sorted r l :
  StronglySorted Z.le (map fst l) -> StronglySorted Z.le (map fst (insert_row r l)).
Proof.
  induction l as [|x l IH]; simpl; intros Hs.
  - constructor; constructor.
  - destruct (Z.leb (fst r) (fst x)) eqn:E.
    + apply Z.leb_le in E. simpl. constructor; [exact Hs|].
      apply StronglySorted_inv in Hs as [_ Hall].
      constructor; [exact E|].
      eapply Forall_impl; [exact Hall|]. intros z Hz. simpl in Hz. lia.
    + apply Z.leb_gt in E. simpl.
      apply StronglySorted_inv in Hs as [Hs Hall].
      constructor; [exact (IH Hs)|].
      assert (Hp : Permutation (map fst (insert_row r l)) (fst r :: map fst l))
        by (change (fst r :: map fst l) with (map fst (r :: l));
            apply Permutation_map, insert_row_perm).
      eapply Permutation_Forall; [symmetry; exact Hp|].
      constructor; [lia|exact Hall].
Qed.

Lemma sort_rows_sorted l : StronglySorted Z.le (map fst (sort_rows l)).
Proof.
  induction l as [|x l IH]; simpl; [constructor|].
  apply insert_row_sorted, IH.
Qed.

Lemma sort_rows_length l : length (sort_rows l) = length l.
Proof. apply Permutation_length, sort_rows_perm. Qed.

End Sorting.

Lemma ascending_NoDup_strict (l : list Z) :
  ascending l -> NoDup l -> strictly_ascending l.
Proof.
  unfold ascending, strictly_ascending.
  induction l as [|x l IH]; intros Hs Hn; [constructor|].
  apply StronglySorted_inv in Hs as [Hs Hall].
  apply NoDup_cons in Hn as [Hx Hn].
  constructor; [exact (IH Hs Hn)|].
  apply Forall_forall. intros y Hy.
  rewrite Forall_forall in Hall. specialize (Hall y Hy).
  assert (x <> y) by (intros ->; apply Hx, Hy).
  lia.
Qed.

Lemma strictly_ascending_NoDup (l : list Z) : strictly_ascending l -> NoDup l.
Proof.
  unfold strictly_ascending.
  induction l as [|x l IH]; intros Hs; [constructor|].
  apply StronglySorted_inv in Hs as [Hs Hall].
  apply NoDup_cons. split; [|exact (IH Hs)].
  intros Hx. rewrite Forall_forall in Hall. specialize (Hall x Hx). lia.
Qed.

(** ** Columns of a frame built from records *)

Lemma dict_get_In {V : Type} (k : string) (d : dict V) (v : V) :
  dict_get k d = Some v -> In (k, v) d.
Proof.
  induction d as [|[k' v'] d IH]; simpl; [discriminate|].
  destruct (String.eqb k k') eqn:E.
  - apply String.eqb_eq in E. intros [= ->]. left. congruence.
  - intros H. right. exact (IH H).
Qed.

Lemma dict_get_wf {V : Type} (k : string) (d : dict V) (v : V) :
  dict_wf d -> In (k, v) d -> dict_get k d = Some v.
Proof.
  unfold dict_wf, keys.
  induction d as [|[k' v'] d IH]; simpl; intros Hwf Hin; [contradiction|].
  apply NoDup_cons in Hwf as [Hk' Hwf].
  destruct Hin as [[= -> ->]|Hin].
  - rewrite String.eqb_refl. reflexivity.
  - destruct (String.eqb k k') eqn:E; [|exact (IH Hwf Hin)].
    apply String.eqb_eq in E. subst k'. exfalso. apply Hk'.
    apply list_elem_of_In. change k with (fst (k, v)). apply in_map, Hin.
Qed.

Lemma dict_in_keys {V : Type} (k : string) (d : dict V) :
  dict_in k d = true <-> In k (keys d).
Proof.
  rewrite dict_in_true. split.
  - intros [v Hv]. exact (dict_get_in_keys _ _ _ Hv).
  - induction d as [|[k' v'] d IH]; simpl; [contradiction|].
    destruct (String.eqb k k') eqn:E; [intros _; eauto|].
    intros [Heq|Hin]; [|exact (IH Hin)].
    subst k'. rewrite String.eqb_refl in E. discriminate.
Qed.

Lemma in_add_new (l : list string) (x y : string) :
  In y (add_new l x) <-> In y l \/ y = x.
Proof.
  unfold add_new. destruct (existsb (String.eqb x) l) eqn:E.
  - split; [auto|]. intros [H| ->]; [exact H|].
    apply existsb_exists in E as (x' & Hin & Heq).
    apply String.eqb_eq in Heq. subst x'. exact Hin.
  - rewrite in_app_iff. simpl. intuition.
Qed.

Lemma in_fold_add_new (xs acc : list string) (y : string) :
  In y (fold_left add_new xs acc) <-> In y acc \/ In y xs.
Proof.
  revert acc. induction xs as [|x xs IH]; simpl; intros acc; [tauto|].
  rewrite IH, in_add_new. intuition.
Qed.

Lemma in_union_all_from (ls : list (list string)) (acc : list string) (y : string) :
  In y (fold_left (fun acc l => fold_left add_new l acc) ls acc)
  <-> In y acc \/ exists l, In l ls /\ In y l.
Proof.
  revert acc. induction ls as [|l ls IH]; simpl; intros acc.
  - split; [auto|]. intros [H|(l & [] & _)]. exact H.
  - rewrite IH, in_fold_add_new. split.
    + intros [[H|H]|(l' & Hl' & Hy)]; eauto.
    + intros [H|(l' & [<-|Hl'] & Hy)]; eauto.
Qed.

Lemma in_union_all (ls : list (list string)) (y : string) :
  In y (union_all ls) <-> exists l, In l ls /\ In y l.
Proof.
  unfold union_all. rewrite in_union_all_from. simpl. tauto.
Qed.

Lemma NoDup_add_new (l : list string) (x : string) : NoDup l -> NoDup (add_new l x).
Proof.
  intros Hl. unfold add_new. destruct (existsb (String.eqb x) l) eqn:E; [exact Hl|].
  apply NoDup_app. split; [exact Hl|]. split; [|apply NoDup_singleton].
  intros y Hy Hx. apply list_elem_of_singleton in Hx. subst y.
  assert (existsb (String.eqb x) l = true); [|congruence].
  apply existsb_exists. exists x. split; [apply list_elem_of_In, Hy|apply String.eqb_refl].
Qed.

Lemma NoDup_fold_add_new (xs acc : list string) :
  NoDup acc -> NoDup (fold_left add_new xs acc).
Proof.
  revert acc. induction xs as [|x xs IH]; simpl; intros acc H; [exact H|].
  apply IH, NoDup_add_new, H.
Qed.

Lemma NoDup_union_all (ls : list (list string)) : NoDup (union_all ls).
Proof.
  unfold union_all. generalize (NoDup_nil_2 (A:=string)). generalize (@nil string) as acc.
  induction ls as [|l ls IH]; simpl; intros acc H; [exact H|].
  apply IH, NoDup_fold_add_new, H.
Qed.

Lemma in_union_columns (ts : TimeSeries) (c : string) :
  In c (union_columns ts) <-> exists item, In item ts /\ In c (keys (snd item)).
Proof.
  unfold union_columns. rewrite in_union_all. split.
  - intros (l & Hl & Hc). apply in_map_iff in Hl as (item & <- & Hin). eauto.
  - intros (item & Hin & Hc). exists (keys (snd item)). split; [|exact Hc].
    apply in_map_iff. eauto.
Qed.

Lemma union_columns_complete (ts : TimeSeries) (item : string * Bar) (c : string) :
  In item ts -> In c (keys (snd item)) -> In c (union_columns ts).
Proof. intros Hin Hc. apply in_union_columns. exists item. split; assumption. Qed.

(** ** Conversions, row by row *)

Lemma forallb_false_witness {A : Type} (p : A -> bool) (l : list A) :
  forallb p l = false -> exists a, In a l /\ p a = false.
Proof.
  induction l as [|a l IH]; simpl; intros E; [discriminate|].
  destruct (p a) eqn:Ea.
  - destruct (IH E) as (a' & Hin & Ha'). exists a'. split; [right|]; assumption.
  - exists a. split; [left; reflexivity|exact Ea].
Qed.

Lemma forallb_map_compose {A B : Type} (p : B -> bool) (f : A -> B) (l : list A) :
  forallb p (map f l) = forallb (fun a => p (f a)) l.
Proof. induction l as [|a l IH]; simpl; [reflexivity|]. rewrite IH. reflexivity. Qed.

Lemma forallb_both {A : Type} (p q : A -> bool) (l : list A) :
  forallb (fun a => p a && q a) l = forallb p l && forallb q l.
Proof.
  induction l as [|a l IH]; simpl; [reflexivity|]. rewrite IH.
  destruct (p a), (q a), (forallb p l), (forallb q l); reflexivity.
Qed.

Lemma forallb_agree {A : Type} (p q : A -> bool) (l : list A) :
  (forall a, In a l -> p a = q a) -> forallb p l = forallb q l.
Proof.
  induction l as [|a l IH]; simpl; intros H; [reflexivity|].
  rewrite (H a) by (left; reflexivity).
  rewrite IH by (intros a' Ha'; apply H; right; exact Ha'). reflexivity.
Qed.

Lemma mapE_ok_map {A B : Type} (f : A -> Exc B) (g : A -> B) (l : list A) :
  (forall a, In a l -> f a = Ok (g a)) -> mapE f l = Ok (map g l).
Proof.
  induction l as [|a l IH]; simpl; intros H; [reflexivity|].
  rewrite (H a) by (left; reflexivity). simpl.
  rewrite IH by (intros a' Ha'; apply H; right; exact Ha'). reflexivity.
Qed.

Lemma mapE_raise {A B : Type} (f : A -> Exc B) (e : Exception) (l : list A) :
  (forall a, In a l -> (exists b, f a = Ok b) \/ f a = Raise e) ->
  (exists a, In a l /\ f a = Raise e) ->
  mapE f l = Raise e.
Proof.
  induction l as [|a l IH]; simpl; intros Hall (a0 & Hin & Hbad); [contradiction|].
  destruct (Hall a (or_introl eq_refl)) as [[b Hb]|Hb]; rewrite Hb; simpl; [|reflexivity].
  rewrite IH; [reflexivity| |].
  - intros a' Ha'. apply Hall. right. exact Ha'.
  - destruct Hin as [->|Hin]; [congruence|]. exists a0. split; assumption.
Qed.

Section Pipeline.

Context {F : Type}.
Variable float_of_str : string -> option F.
Variable datetime_of_str : string -> option Z.

Local Abbreviation cell_ok' := (cell_ok float_of_str).
Local Abbreviation bar_ok' := (bar_ok float_of_str).
Local Abbreviation label_ok' := (label_ok datetime_of_str).
Local Abbreviation float_cell' := (float_cell float_of_str).
Local Abbreviation stamp' := (stamp datetime_of_str).
Local Abbreviation astype_float_cell' := (astype_float_cell float_of_str).
Local Abbreviation to_datetime_label' := (to_datetime_label datetime_of_str).

Lemma astype_float_cell_cases (c : option string) :
  (cell_ok' c = true /\ astype_float_cell' c = Ok (float_cell' c))
  \/ (cell_ok' c = false /\ astype_float_cell' c = Raise ValueError).
Proof.
  destruct c as [s|]; simpl; [|left; split; reflexivity].
  unfold float_cell. simpl.
  destruct (float_of_str s); [left|right]; split; reflexivity.
Qed.

Lemma astype_cells (cells : list (option string)) :
  mapE astype_float_cell' cells
  = if forallb cell_ok' cells then Ok (map float_cell' cells) else Raise ValueError.
Proof.
  destruct (forallb cell_ok' cells) eqn:E.
  - apply mapE_ok_map. intros c Hc.
    rewrite forallb_forall in E. specialize (E c Hc).
    destruct (astype_float_cell_cases c) as [[_ H]|[H _]]; congruence.
  - apply mapE_raise.
    + intros c _. destruct (astype_float_cell_cases c) as [[_ H]|[_ H]]; eauto.
    + destruct (forallb_false_witness _ _ E) as (c & Hin & Hc).
      exists c. split; [exact Hin|].
      destruct (astype_float_cell_cases c) as [[H _]|[_ H]]; congruence.
Qed.

Lemma to_datetime_label_cases {A : Type} (r : string * A) :
  (label_ok' (fst r) = true /\ to_datetime_label' r = Ok (stamp' (fst r), snd r))
  \/ (label_ok' (fst r) = false /\ to_datetime_label' r = Raise ValueError).
Proof.
  unfold label_ok, to_datetime_label, stamp.
  destruct (datetime_of_str (fst r)); [left|right]; split; reflexivity.
Qed.

(** The cells of a record under the columns of its frame convert exactly
    when its own fields do. *)
Lemma cells_ok_bar (bar : Bar) (cols : list string) :
  (forall c, In c (keys bar) -> In c cols) ->
  forallb cell_ok' (map (fun c => dict_get c bar) cols) = bar_ok' bar.
Proof.
  intros Hsub. unfold bar_ok.
  destruct (forallb (fun field => cell_ok' (dict_get field bar)) (keys bar)) eqn:E.
  - apply forallb_forall. intros cell Hcell.
    apply in_map_iff in Hcell as (c & <- & _).
    destruct (dict_get c bar) as [s|] eqn:Hget; [|reflexivity].
    rewrite forallb_forall in E. rewrite <- Hget.
    apply E. eapply dict_get_in_keys, Hget.
  - apply not_true_is_false. intros Hall.
    rewrite forallb_forall in Hall.
    assert (forallb (fun field => cell_ok' (dict_get field bar)) (keys bar) = true);
      [|congruence].
    apply forallb_forall. intros c Hc.
    apply Hall, in_map_iff. exists c. split; [reflexivity|apply Hsub, Hc].
Qed.

Lemma astype_rows {I : Type} (rs : list (I * list (option string))) :
  mapE (fun r => let! cs := mapE astype_float_cell' (snd r) in Ok (fst r, cs)) rs
  = if forallb (fun r => forallb cell_ok' (snd r)) rs
    then Ok (map (fun r => (fst r, map float_cell' (snd r))) rs)
    else Raise ValueError.
Proof.
  destruct (forallb _ rs) eqn:E.
  - apply mapE_ok_map. intros r Hr.
    rewrite forallb_forall in E. specialize (E r Hr). simpl in E.
    rewrite astype_cells, E. reflexivity.
  - destruct (forallb_false_witness _ _ E) as (r & Hin & Hr). simpl in Hr.
    apply mapE_raise.
    + intros r' _. rewrite astype_cells.
      destruct (forallb cell_ok' (snd r')); simpl; eauto.
    + exists r. split; [exact Hin|]. rewrite astype_cells, Hr. reflexivity.
Qed.

Lemma to_datetime_rows {A : Type} (rs : list (string * A)) :
  mapE to_datetime_label' rs
  = if forallb (fun r => label_ok' (fst r)) rs
    then Ok (map (fun r => (stamp' (fst r), snd r)) rs)
    else Raise ValueError.
Proof.
  destruct (forallb _ rs) eqn:E.
  - apply mapE_ok_map. intros r Hr.
    rewrite forallb_forall in E. specialize (E r Hr). simpl in E.
    destruct (to_datetime_label_cases r) as [[_ H]|[H _]]; congruence.
  - destruct (forallb_false_witness _ _ E) as (r & Hin & Hr). simpl in Hr.
    apply mapE_raise.
    + intros r' _. destruct (to_datetime_label_cases r') as [[_ H]|[_ H]]; eauto.
    + exists r. split; [exact Hin|].
      destruct (to_datetime_label_cases r) as [[H _]|[_ H]]; congruence.
Qed.

(** Lines 47-59 on a time series: the sorted frame of its converted
    rows when every label and field converts, [ValueError] otherwise. *)
Lemma normalize_series (ts : TimeSeries) :
  normalize float_of_str datetime_of_str (VSeries ts)
  = if series_ok float_of_str datetime_of_str ts
    then Ok (mkDataFrame (map rename_column (union_columns ts))
                         (sort_rows (converted_rows float_of_str datetime_of_str ts)))
    else Raise ValueError.
Proof.
  unfold normalize, from_dict, astype_float, to_datetime, rename, sort_index, series_ok,
    entry_ok.
  cbn [bind rows columns].
  rewrite astype_rows, forallb_map_compose. cbn [snd].
  rewrite (forallb_agree _ (fun item => bar_ok' (snd item)))
    by (intros item Hin; apply cells_ok_bar; intros c Hc;
        eapply union_columns_complete; eassumption).
  rewrite forallb_both. unfold Bar in *.
  match goal with
  | |- context [forallb ?p ts && forallb ?q ts] =>
      destruct (forallb q ts) eqn:Eb; destruct (forallb p ts) eqn:El
  end; cbn [andb bind rows columns]; try reflexivity;
    rewrite to_datetime_rows, !forallb_map_compose; cbn [fst];
    rewrite El; cbn [bind rows columns]; [|reflexivity].
  unfold converted_rows. rewrite !map_map.
  apply (f_equal Ok), (f_equal (mkDataFrame _)), (f_equal sort_rows), map_ext.
  intros item. cbn [fst snd]. rewrite map_map. reflexivity.
Qed.

Lemma converted_rows_index (ts : TimeSeries) :
  map fst (converted_rows float_of_str datetime_of_str ts) = map stamp' (keys ts).
Proof. unfold converted_rows, keys. rewrite !map_map. reflexivity. Qed.

End Pipeline.

(** ** One execution of the body *)

Section Body.

Context {F : Type}.
Variable float_of_str : string -> option F.
Variable datetime_of_str : string -> option Z.

Local Abbreviation run' := (run float_of_str datetime_of_str).
Local Abbreviation try_block' := (try_block float_of_str datetime_of_str).
Local Abbreviation series_ok' := (series_ok float_of_str datetime_of_str).
Local Abbreviation converted_rows' := (converted_rows float_of_str datetime_of_str).
Local Abbreviation fetch' := (get_stock_data_with float_of_str datetime_of_str).

Lemma run_key_not_set (api_key : string) (net : string -> Response)
    (symbol interval : string) :
  key_not_set api_key = true ->
  run' api_key net symbol interval = mkRun [st_error KeyNotSet] None [].
Proof. intros H. unfold run. rewrite H. reflexivity. Qed.

Lemma run_key_set (api_key : string) (net : string -> Response)
    (symbol interval : string) :
  key_not_set api_key = false ->
  run' api_key net symbol interval
  = let out := except (try_block' symbol (net (query_url api_key symbol interval))) in
    mkRun (fst out) (snd out) [query_url api_key symbol interval].
Proof. intros H. unfold run. rewrite H. reflexivity. Qed.

Lemma raise_for_status_ok (status : Z) :
  ~ (400 <= status < 600)%Z -> raise_for_status status = Ok tt.
Proof.
  intros H. unfold raise_for_status.
  destruct (400 <=? status)%Z eqn:E1; destruct (status <? 600)%Z eqn:E2;
    try reflexivity.
  apply Z.leb_le in E1. apply Z.ltb_lt in E2. lia.
Qed.

Lemma raise_for_status_raises (status : Z) :
  (400 <= status < 600)%Z -> raise_for_status status = Raise (HTTPError status).
Proof.
  intros [H1 H2]. unfold raise_for_status.
  apply Z.leb_le in H1. apply Z.ltb_lt in H2. rewrite H1, H2. reflexivity.
Qed.

(** A payload without the key ["Time Series (5min)"] ends at line 38. *)
Lemma try_block_without_5min (symbol : string) (status : Z) (data : Payload) :
  ~ (400 <= status < 600)%Z ->
  dict_in "Time Series (5min)" data = false ->
  try_block' symbol (Responded status data) = Ok (classify symbol data, None).
Proof.
  intros Hst H5. unfold try_block.
  rewrite (raise_for_status_ok _ Hst), H5. reflexivity.
Qed.

(** A payload with that key goes through lines 42-59. *)
Lemma try_block_series (symbol : string) (status : Z) (data : Payload)
    (k : string) (ts : TimeSeries) :
  ~ (400 <= status < 600)%Z ->
  dict_in "Time Series (5min)" data = true ->
  time_series_key data = Some k ->
  dict_get k data = Some (VSeries ts) ->
  try_block' symbol (Responded status data)
  = if series_ok' ts
    then Ok ([], Some (mkDataFrame (map rename_column (union_columns ts))
                                   (sort_rows (converted_rows' ts))))
    else Raise ValueError.
Proof.
  intros Hst H5 Hk Hts. unfold try_block.
  rewrite (raise_for_status_ok _ Hst), H5, Hk, Hts. cbn [bind negb].
  rewrite normalize_series. destruct (series_ok' ts); reflexivity.
Qed.

(** The first key that contains "Time Series" is a key of the payload. *)
Lemma time_series_key_found (data : Payload) (k : string) :
  time_series_key data = Some k ->
  In k (keys data) /\ contains "Time Series" k = true.
Proof. unfold time_series_key. apply find_some. Qed.

(** ** The cache *)

Lemma cache_miss (api_key : string) (net : string -> Response) (now : Z)
    (symbol : string) (interval : option string) (w : World) :
  cache_read w (symbol, interval) now = None ->
  fetch' api_key net now symbol interval w
  = let r := run' api_key net symbol (default default_interval interval) in
    (returned r,
     mkWorld (<[(symbol, interval) := mkEntry (returned r) (shown r) now]> (cache w))
             (screen w ++ shown r) (network w ++ requested r)).
Proof. intros H. unfold get_stock_data_with. rewrite H. reflexivity. Qed.

Lemma cache_hit (api_key : string) (net : string -> Response) (now : Z)
    (symbol : string) (interval : option string) (w : World) (e : Entry) :
  cache_read w (symbol, interval) now = Some e ->
  fetch' api_key net now symbol interval w
  = (value e, mkWorld (cache w) (screen w ++ replay e) (network w)).
Proof. intros H. unfold get_stock_data_with. rewrite H. reflexivity. Qed.

Lemma cache_read_start (k : string * option string) (now : Z) :
  cache_read (F:=F) start k now = None.
Proof. unfold cache_read, start. cbn [cache]. rewrite lookup_empty. reflexivity. Qed.

Lemma cache_read_Some (w : World (F:=F)) (k : string * option string) (now : Z)
    (e : Entry) :
  cache_read w k now = Some e <-> cache w !! k = Some e /\ (now < stored_at e + ttl)%Z.
Proof.
  unfold cache_read, is_fresh. destruct (cache w !! k) as [e'|].
  - destruct (now <? stored_at e' + ttl)%Z eqn:E.
    + apply Z.ltb_lt in E. split.
      * intros [= ->]. split; [reflexivity|exact E].
      * intros [Heq _]. exact Heq.
    + apply Z.ltb_ge in E. split; [discriminate|].
      intros [[= ->] Hlt]. lia.
  - split; [discriminate|]. intros [Hc _]. discriminate.
Qed.

(** What a call that ran the body leaves behind is served until the
    clock reaches the time of the call plus [ttl], and not after. *)
Lemma cache_read_after_store (c : gmap (string * option string) Entry)
    (s : list Element) (n : list string) (k : string * option string)
    (e : Entry (F:=F)) (now : Z) :
  cache_read (mkWorld (<[k := e]> c) s n) k now
  = if (now <? stored_at e + ttl)%Z then Some e else None.
Proof. unfold cache_read, is_fresh. cbn [cache]. rewrite lookup_insert_eq. reflexivity. Qed.

End Body.

(** ** The script as shipped *)

Section Shipped.

Context {F : Type}.
Variable float_of_str : string -> option F.
Variable datetime_of_str : string -> option Z.

Local Abbreviation run' := (run float_of_str datetime_of_str).
Local Abbreviation shipped := (get_stock_data float_of_str datetime_of_str).
Local Abbreviation session' := (session float_of_str datetime_of_str).

Lemma API_KEY_not_set : key_not_set API_KEY = true.
Proof. reflexivity. Qed.

Lemma shipped_step (net : string -> Response) (now : Z) (symbol : string)
    (interval : option string) (w : World) :
  quiet w ->
  fst (shipped net now symbol interval w) = None
  /\ quiet (snd (shipped net now symbol interval w)).
Proof.
  intros [Hnet Hcache]. unfold get_stock_data.
  destruct (cache_read w (symbol, interval) now) as [e|] eqn:E.
  - rewrite (cache_hit _ _ _ _ _ _ _ _ e E). cbn [fst snd].
    apply cache_read_Some in E as [E _].
    split; [exact (Hcache _ _ E)|]. split; [exact Hnet|exact Hcache].
  - rewrite (cache_miss _ _ _ _ _ _ _ _ E).
    rewrite (run_key_not_set _ _ _ _ _ _ API_KEY_not_set).
    cbn [fst snd returned shown requested].
    split; [reflexivity|]. split; cbn [network cache].
    + rewrite Hnet. reflexivity.
    + intros k e. rewrite lookup_insert. case_decide.
      * intros [= <-]. reflexivity.
      * apply Hcache.
Qed.

Lemma shipped_session (cs : list Call) (w : World) :
  quiet w ->
  Forall (eq None) (fst (session' API_KEY cs w)) /\ quiet (snd (session' API_KEY cs w)).
Proof.
  revert w. induction cs as [|c cs IH]; intros w Hq; cbn [session fst snd].
  - split; [constructor|exact Hq].
  - destruct (shipped_step (net_of c) (at_time c) (symbol_of c) (interval_of c) w Hq)
      as [Hret Hq'].
    destruct (IH _ Hq') as [Hrets Hq''].
    split; [|exact Hq''].
    constructor; [symmetry; exact Hret|exact Hrets].
Qed.

Lemma quiet_start : quiet (F:=F) start.
Proof.
  split; [reflexivity|]. intros k e. unfold start. cbn [cache].
  rewrite lookup_empty. discriminate.
Qed.

(** C1.  With the key the script assigns, the guard of line 18 holds, so
    one execution of the body shows the key-not-set error, returns
    [None] and requests nothing, whatever the symbol, the interval and
    the network; and over any session started with an empty cache every
    call of [get_stock_data] returns [None] and the network is never
    called. *)
Theorem shipped_key_never_requests :
  (forall (net : string -> Response) (symbol interval : string),
      run' API_KEY net symbol interval = mkRun [st_error KeyNotSet] None [])
  /\ (forall cs : list Call,
        Forall (eq None) (fst (session' API_KEY cs start))
        /\ network (snd (session' API_KEY cs start)) = []).
Proof.
  split.
  - intros net symbol interval. apply run_key_not_set, API_KEY_not_set.
  - intros cs. destruct (shipped_session cs start quiet_start) as [Hrets [Hnet _]].
    split; assumption.
Qed.

End Shipped.

(** ** The fetcher for any key *)

Section AnyKey.

Context {F : Type}.
Variable float_of_str : string -> option F.
Variable datetime_of_str : string -> option Z.

Local Abbreviation run' := (run float_of_str datetime_of_str).
Local Abbreviation try_block' := (try_block float_of_str datetime_of_str).
Local Abbreviation series_ok' := (series_ok float_of_str datetime_of_str).
Local Abbreviation converted_rows' := (converted_rows float_of_str datetime_of_str).
Local Abbreviation fetch' := (get_stock_data_with float_of_str datetime_of_str).

Lemma series_ok_labels (ts : TimeSeries) :
  series_ok' ts = true ->
  map datetime_of_str (keys ts) = map Some (map (stamp datetime_of_str) (keys ts)).
Proof.
  unfold series_ok, keys. rewrite !map_map. intros H.
  apply map_ext_in. intros item Hin.
  rewrite forallb_forall in H. specialize (H item Hin).
  unfold entry_ok in H. apply andb_true_iff in H as [H _].
  unfold label_ok, stamp in *.
  destruct (datetime_of_str (fst item)); [reflexivity|discriminate].
Qed.

(** The frame returned for a payload whose series converts. *)
Lemma run_series (api_key : string) (net : string -> Response) (symbol interval : string)
    (status : Z) (data : Payload) (k : string) (ts : TimeSeries) :
  key_not_set api_key = false ->
  net (query_url api_key symbol interval) = Responded status data ->
  ~ (400 <= status < 600)%Z ->
  dict_in "Time Series (5min)" data = true ->
  time_series_key data = Some k ->
  dict_get k data = Some (VSeries ts) ->
  run' api_key net symbol interval
  = if series_ok' ts
    then mkRun [] (Some (mkDataFrame (map rename_column (union_columns ts))
                                     (sort_rows (converted_rows' ts))))
               [query_url api_key symbol interval]
    else mkRun [st_error (UnexpectedError ValueError)] None
               [query_url api_key symbol interval].
Proof.
  intros Hkey Hnet Hst H5 Hk Hts.
  rewrite (run_key_set _ _ _ _ _ _ Hkey), Hnet.
  rewrite (try_block_series _ _ _ _ _ _ _ Hst H5 Hk Hts).
  destruct (series_ok' ts); reflexivity.
Qed.

(** C3, as the code has it.  With a key that passes the guard, a
    response that is not a 4xx/5xx and a payload whose 5-minute series
    converts, a call that misses the cache returns a frame with one row
    per entry of the series, in ascending order of parsed timestamp; its
    timestamps are the parsed labels, each as often as it occurs, so
    entries that parse to the same timestamp are all kept; the order is
    strict exactly when the parsed labels are pairwise distinct. *)
Theorem sorted_frame_keeps_every_entry
    (api_key : string) (net : string -> Response) (now : Z) (symbol : string)
    (interval : option string) (w : World)
    (status : Z) (data : Payload) (k : string) (ts : TimeSeries) :
  key_not_set api_key = false ->
  cache_read w (symbol, interval) now = None ->
  net (query_url api_key symbol (default default_interval interval))
    = Responded status data ->
  ~ (400 <= status < 600)%Z ->
  dict_in "Time Series (5min)" data = true ->
  time_series_key data = Some k ->
  dict_get k data = Some (VSeries ts) ->
  dict_wf ts ->
  series_ok' ts = true ->
  exists df : Quotes,
    fst (fetch' api_key net now symbol interval w) = Some df
    /\ ascending (index df)
    /\ Permutation (map Some (index df)) (map datetime_of_str (keys ts))
    /\ length (rows df) = length ts
    /\ (strictly_ascending (index df) <-> NoDup (map datetime_of_str (keys ts))).
Proof.
  intros Hkey Hmiss Hnet Hst H5 Hk Hts _ Hok.
  rewrite (cache_miss _ _ _ _ _ _ _ _ Hmiss). cbn [fst].
  rewrite (run_series _ _ _ _ _ _ _ _ Hkey Hnet Hst H5 Hk Hts), Hok. cbn [returned].
  eexists. split; [reflexivity|]. unfold index. cbn [rows].
  assert (Hperm : Permutation (map fst (sort_rows (converted_rows' ts)))
                              (map (stamp datetime_of_str) (keys ts))).
  { rewrite <- (converted_rows_index float_of_str). apply Permutation_map, sort_rows_perm. }
  assert (Hasc : ascending (map fst (sort_rows (converted_rows' ts))))
    by apply sort_rows_sorted.
  rewrite (series_ok_labels _ Hok).
  split; [exact Hasc|]. split; [apply Permutation_map, Hperm|].
  split.
  - rewrite sort_rows_length. unfold converted_rows. apply length_map.
  - split.
    + intros Hs. apply strictly_ascending_NoDup in Hs.
      apply (NoDup_fmap_2 Some). rewrite <- Hperm. exact Hs.
    + intros Hn. apply ascending_NoDup_strict; [exact Hasc|].
      rewrite Hperm. eapply (NoDup_fmap_1 Some). exact Hn.
Qed.

(** C8.  When an entry of the series the code picks (the value under
    the first key containing "Time Series") has a label or a field
    that does not convert, the call returns [None]: never a frame of the
    entries that did convert.  This holds for every key, status and
    payload; when the payload does reach the conversions, what is shown
    is the unexpected-error text carrying the [ValueError]. *)
Theorem malformed_entry_fails_whole_fetch
    (api_key : string) (net : string -> Response) (now : Z) (symbol : string)
    (interval : option string) (w : World)
    (status : Z) (data : Payload) (k : string) (ts : TimeSeries) :
  cache_read w (symbol, interval) now = None ->
  net (query_url api_key symbol (default default_interval interval))
    = Responded status data ->
  time_series_key data = Some k ->
  dict_get k data = Some (VSeries ts) ->
  dict_wf ts ->
  series_ok' ts = false ->
  fst (fetch' api_key net now symbol interval w) = None
  /\ (key_not_set api_key = false ->
      ~ (400 <= status < 600)%Z ->
      dict_in "Time Series (5min)" data = true ->
      screen (snd (fetch' api_key net now symbol interval w))
      = (screen w ++ [st_error (UnexpectedError ValueError)])%list).
Proof.
  intros Hmiss Hnet Hk Hts _ Hbad.
  rewrite (cache_miss _ _ _ _ _ _ _ _ Hmiss). cbn [fst snd screen]. split.
  - destruct (key_not_set api_key) eqn:Hkey;
      [rewrite (run_key_not_set _ _ _ _ _ _ Hkey); reflexivity|].
    rewrite (run_key_set _ _ _ _ _ _ Hkey), Hnet. cbn [returned].
    assert (Hcase : (400 <= status < 600)%Z \/ ~ (400 <= status < 600)%Z) by lia.
    destruct Hcase as [Hst|Hst].
    + unfold try_block. rewrite (raise_for_status_raises _ Hst). reflexivity.
    + destruct (dict_in "Time Series (5min)" data) eqn:H5.
      * rewrite (try_block_series _ _ _ _ _ _ _ Hst H5 Hk Hts), Hbad. reflexivity.
      * rewrite (try_block_without_5min _ _ _ _ _ Hst H5). reflexivity.
  - intros Hkey Hst H5.
    rewrite (run_series _ _ _ _ _ _ _ _ Hkey Hnet Hst H5 Hk Hts), Hbad. reflexivity.
Qed.

(** ** Failures and the cache *)

Lemma run_http_failure (api_key : string) (net : string -> Response)
    (symbol interval : string) (e : Exception) :
  key_not_set api_key = false ->
  http_failure (net (query_url api_key symbol interval)) = Some e ->
  run' api_key net symbol interval
  = mkRun [st_error (NetworkError e)] None [query_url api_key symbol interval].
Proof.
  intros Hkey Hfail. rewrite (run_key_set _ _ _ _ _ _ Hkey).
  destruct (net (query_url api_key symbol interval))
    as [cause|status data|status data|status flag];
    cbn [http_failure] in Hfail;
    [injection Hfail as <-; reflexivity| | |];
    unfold try_block, raise_for_status;
    (destruct ((400 <=? status) && (status <? 600))%Z; [|discriminate]);
    injection Hfail as <-; reflexivity.
Qed.

(** A call that ran the body is answered from the cache until the clock
    reaches the time of that call plus [ttl]: same value, the same
    elements shown again, nothing requested. *)
Lemma served_within_window (api_key : string) (net net' : string -> Response)
    (now now' : Z) (symbol : string) (interval : option string) (w : World) :
  cache_read w (symbol, interval) now = None ->
  (now' < now + ttl)%Z ->
  let r := run' api_key net symbol (default default_interval interval) in
  let w1 := snd (fetch' api_key net now symbol interval w) in
  fetch' api_key net' now' symbol interval w1
  = (returned r, mkWorld (cache w1) (screen w1 ++ shown r) (network w1)).
Proof.
  intros Hmiss Hlt r w1. subst w1.
  rewrite (cache_miss _ _ _ _ _ _ _ _ Hmiss). cbn [snd]. fold r.
  rewrite (cache_hit _ _ _ _ _ _ _ _ (mkEntry (returned r) (shown r) now));
    [reflexivity|].
  rewrite cache_read_after_store. cbn [stored_at].
  apply Z.ltb_lt in Hlt. rewrite Hlt. reflexivity.
Qed.

(** From then on the body runs again. *)
Lemma runs_again_after_window (api_key : string) (net net' : string -> Response)
    (now now' : Z) (symbol : string) (interval : option string) (w : World) :
  cache_read w (symbol, interval) now = None ->
  (now + ttl <= now')%Z ->
  let r' := run' api_key net' symbol (default default_interval interval) in
  let w1 := snd (fetch' api_key net now symbol interval w) in
  fst (fetch' api_key net' now' symbol interval w1) = returned r'
  /\ network (snd (fetch' api_key net' now' symbol interval w1))
     = (network w1 ++ requested r')%list.
Proof.
  intros Hmiss Hge r' w1. subst w1.
  rewrite (cache_miss _ _ _ _ _ _ _ _ Hmiss). cbn [snd].
  rewrite cache_miss; [split; reflexivity|].
  rewrite cache_read_after_store. cbn [stored_at].
  apply Z.ltb_ge in Hge. rewrite Hge. reflexivity.
Qed.

(** C5, as the code has it.  With a key that passes the guard, when the
    request fails in transport or comes back with a 4xx/5xx status, a
    call that misses the cache shows the network-error text, returns
    [None] and has requested the URL once; the decorator stores that
    [None] under the call's arguments, so until the clock reaches the
    time of the call plus [ttl] the same call is answered [None] from
    the cache without any request, whatever the network would answer by
    then; from that time on the request is issued again. *)
Theorem http_failure_is_cached
    (api_key : string) (net : string -> Response) (now : Z) (symbol : string)
    (interval : option string) (w : World) (e : Exception) :
  key_not_set api_key = false ->
  cache_read w (symbol, interval) now = None ->
  http_failure (net (query_url api_key symbol (default default_interval interval)))
    = Some e ->
  let url := query_url api_key symbol (default default_interval interval) in
  let out := fetch' api_key net now symbol interval w in
  fst out = None
  /\ screen (snd out) = (screen w ++ [st_error (NetworkError e)])%list
  /\ network (snd out) = (network w ++ [url])%list
  /\ cache (snd out) !! (symbol, interval)
     = Some (mkEntry None [st_error (NetworkError e)] now)
  /\ (forall (net' : string -> Response) (now' : Z),
        (now' < now + ttl)%Z ->
        fst (fetch' api_key net' now' symbol interval (snd out)) = None
        /\ network (snd (fetch' api_key net' now' symbol interval (snd out)))
           = network (snd out))
  /\ (forall (net' : string -> Response) (now' : Z),
        (now + ttl <= now')%Z ->
        network (snd (fetch' api_key net' now' symbol interval (snd out)))
        = (network (snd out) ++ [url])%list).
Proof.
  intros Hkey Hmiss Hfail url out.
  pose proof (run_http_failure _ _ _ _ _ Hkey Hfail) as Hrun.
  assert (Hout : out = (None,
            mkWorld (<[(symbol, interval) := mkEntry None [st_error (NetworkError e)] now]>
                       (cache w))
                    (screen w ++ [st_error (NetworkError e)])
                    (network w ++ [url]))).
  { subst out. rewrite (cache_miss _ _ _ _ _ _ _ _ Hmiss), Hrun. reflexivity. }
  split; [rewrite Hout; reflexivity|].
  split; [rewrite Hout; reflexivity|].
  split; [rewrite Hout; reflexivity|].
  split; [rewrite Hout; cbn [snd cache]; apply lookup_insert_eq|].
  split.
  - intros net' now' Hlt. subst out.
    rewrite (served_within_window _ _ net' _ _ _ _ _ Hmiss Hlt), Hrun.
    split; reflexivity.
  - intros net' now' Hge. subst out.
    destruct (runs_again_after_window api_key net net' _ _ _ _ _ Hmiss Hge) as [_ Hn].
    rewrite Hn. f_equal.
    destruct (key_not_set api_key) eqn:Hk; [discriminate|].
    rewrite (run_key_set _ _ _ _ _ _ Hk). reflexivity.
Qed.

(** ** Classification (lines 31-38) *)

Lemma classify_cases (symbol : string) (data : Payload) :
  (forall m, dict_get "Error Message" data = Some m ->
             classify symbol data = [st_error (ApiError m)])
  /\ (forall n, dict_get "Error Message" data = None ->
                dict_get "Note" data = Some n ->
                classify symbol data = [st_warning (ApiNote n)])
  /\ (dict_get "Error Message" data = None ->
      dict_get "Note" data = None ->
      classify symbol data = [st_error (CouldNotFetch symbol data)]).
Proof.
  unfold classify. repeat split.
  - intros m ->. reflexivity.
  - intros n -> ->. reflexivity.
  - intros -> ->. reflexivity.
Qed.

(** Past the guard, a payload without the key ["Time Series (5min)"]
    is answered [None] with the classified text, whatever else it holds. *)
Lemma run_without_5min (api_key : string) (net : string -> Response)
    (symbol interval : string) (status : Z) (data : Payload) :
  key_not_set api_key = false ->
  net (query_url api_key symbol interval) = Responded status data ->
  ~ (400 <= status < 600)%Z ->
  dict_in "Time Series (5min)" data = false ->
  run' api_key net symbol interval
  = mkRun (classify symbol data) None [query_url api_key symbol interval].
Proof.
  intros Hkey Hnet Hst H5.
  rewrite (run_key_set _ _ _ _ _ _ Hkey), Hnet.
  rewrite (try_block_without_5min _ _ _ _ _ Hst H5). reflexivity.
Qed.

(** Past the guard, one execution of the body requests exactly the URL
    of line 24. *)
Lemma run_requests_once (api_key : string) (net : string -> Response)
    (symbol interval : string) :
  key_not_set api_key = false ->
  requested (run' api_key net symbol interval) = [query_url api_key symbol interval].
Proof. intros Hkey. rewrite (run_key_set _ _ _ _ _ _ Hkey). reflexivity. Qed.

End AnyKey.

Lemma query_url_shape (api_key symbol interval : string) :
  query_url api_key symbol interval
  = "https://www.alphavantage.co/query?function=TIME_SERIES_INTRADAY&symbol="
    +:+ symbol +:+ "&interval=" +:+ interval
    +:+ "&outputsize=compact&apikey=" +:+ api_key.
Proof. reflexivity. Qed.

(** ** The conversions on the provider's formats *)

Example iso_datetime_sample :
  iso_datetime "2024-01-02 09:35:00" = Some (timestamp 2024 1 2 9 35 0 0)
  /\ timestamp 2024 1 2 9 35 0 0 = 1704188100000000000%Z
  /\ iso_datetime "2024-01-02 09:35:00.0" = iso_datetime "2024-01-02 09:35:00.00"
  /\ iso_datetime "2024-02-30 09:35:00" = None.
Proof. vm_compute. repeat split; reflexivity. Qed.

Example decimal_of_str_sample :
  map decimal_of_str ["10.0"; "9.8"; "1000"; "-0.25"; "abc"; "."; "1.2.3"]
  = [Some (10 # 1); Some (49 # 5); Some (1000 # 1); Some (-1 # 4); None; None; None]%Q.
Proof. vm_compute. reflexivity. Qed.

(** An item with an empty record keeps its row: the cells are all
    missing, and the label is parsed with the others, so one that is not
    a date fails the conversion of the whole frame. *)
Example empty_record_keeps_its_row :
  from_dict (VSeries series_empty_record)
  = Ok (mkDataFrame ["1. open"; "2. high"; "3. low"; "4. close"; "5. volume"]
          [("no date", [None; None; None; None; None]);
           ("2024-01-02 09:35:00",
            [Some "10.0"; Some "10.5"; Some "9.8"; Some "10.2"; Some "1000"])])
  /\ series_ok decimal_of_str iso_datetime series_empty_record = false
  /\ normalize decimal_of_str iso_datetime (VSeries series_empty_record)
     = Raise ValueError.
Proof. vm_compute. repeat split; reflexivity. Qed.

(** The whole fetch fails on it: no frame of the good bar is returned. *)
Example empty_record_with_bad_label_fails_fetch :
  run decimal_of_str iso_datetime other_key (always (Responded 200 payload_empty_record))
      "AAPL" "5min"
  = mkRun [st_error (UnexpectedError ValueError)] None
          [query_url other_key "AAPL" "5min"].
Proof. vm_compute. reflexivity. Qed.

(** Two items with empty records and labels that are dates give a frame of
    two rows and no column. *)
Example empty_records_give_rows_without_columns :
  normalize decimal_of_str iso_datetime (VSeries series_two_empty_records)
  = Ok (mkDataFrame []
          [(timestamp 2024 1 2 9 35 0 0, []); (timestamp 2024 1 2 9 40 0 0, [])]).
Proof. vm_compute. reflexivity. Qed.

(** The empty mapping gives the frame without rows and columns. *)
Example empty_mapping_gives_empty_frame :
  run decimal_of_str iso_datetime other_key (always (Responded 200 payload_empty_series))
      "AAPL" "5min"
  = mkRun [] (Some (mkDataFrame [] [])) [query_url other_key "AAPL" "5min"].
Proof. vm_compute. reflexivity. Qed.

(** ** Bodies that are not an object *)

(** A string that contains "Time Series (5min)" passes line 31; none of
    its characters contains "Time Series", so line 44 shows its error. *)
Example string_body_reaches_line_44 :
  run decimal_of_str iso_datetime other_key
      (always (RespondedOther 200 (BString "see Time Series (5min)"))) "AAPL" "5min"
  = mkRun [st_error (NoTimeSeriesBody "AAPL" (BString "see Time Series (5min)"))] None
          [query_url other_key "AAPL" "5min"].
Proof. vm_compute. reflexivity. Qed.

(** A list that holds "Time Series (5min)" passes line 31 and the scan
    stops at that item; indexing the list with it is a [TypeError].  So
    is the [in] of line 31 on null. *)
Example list_and_null_bodies_are_type_errors :
  run decimal_of_str iso_datetime other_key
      (always (RespondedOther 200 (BArray [JArray []; JString "Time Series (5min)"])))
      "AAPL" "5min"
  = mkRun [st_error (UnexpectedError TypeError)] None [query_url other_key "AAPL" "5min"]
  /\ run decimal_of_str iso_datetime other_key (always (RespondedOther 200 BNull))
         "AAPL" "5min"
     = mkRun [st_error (UnexpectedError TypeError)] None
             [query_url other_key "AAPL" "5min"].
Proof. vm_compute. split; reflexivity. Qed.

(** A body that is not JSON is reported by the clause that catches the
    decoder's exception. *)
Example undecodable_body_is_reported :
  run decimal_of_str iso_datetime other_key (always (Undecodable 200 true)) "AAPL" "5min"
  = mkRun [st_error (NetworkError (JSONDecodeError true))] None
          [query_url other_key "AAPL" "5min"]
  /\ run decimal_of_str iso_datetime other_key (always (Undecodable 200 false))
         "AAPL" "5min"
     = mkRun [st_error (UnexpectedError (JSONDecodeError false))] None
             [query_url other_key "AAPL" "5min"].
Proof. vm_compute. split; reflexivity. Qed.

(** ** Runs on the sample payloads *)

(** C2.  The payload for the 15-minute interval holds a key containing
    "Time Series" and a series that converts (lines 42-59 would return
    its sorted frame), yet line 31 looks for the fixed key
    ["Time Series (5min)"]: with a key that passes the guard the call
    shows the could-not-fetch error and returns [None]; with the
    shipped key it returns [None] at the guard. *)
Theorem payload_15min_is_rejected :
  time_series_key payload_15min = Some "Time Series (15min)"
  /\ dict_get "Time Series (15min)" payload_15min = Some (VSeries series_15min)
  /\ normalize decimal_of_str iso_datetime (VSeries series_15min) = Ok frame_15min
  /\ run decimal_of_str iso_datetime other_key (always (Responded 200 payload_15min))
         "AAPL" "15min"
     = mkRun [st_error (CouldNotFetch "AAPL" payload_15min)] None
             [query_url other_key "AAPL" "15min"]
  /\ fst (fetch_with other_key (always (Responded 200 payload_15min)) 0
                     "AAPL" (Some "15min") start) = None
  /\ fst (fetch (always (Responded 200 payload_15min)) 0 "AAPL" (Some "15min") start)
     = None.
Proof. vm_compute. repeat split; reflexivity. Qed.

(** C3, refuted as stated.  Two entries whose labels are the same
    instant give, with a key that passes the guard, a frame of two rows
    with that one timestamp: the index is not strictly ascending and has
    a duplicate, and both entries are kept.  With the shipped key the
    same payload gives no frame at all. *)
Lemma same_instant_entries_are_both_kept :
  fst (fetch_with other_key (always (Responded 200 payload_same_instant)) 0
                  "AAPL" None start) = Some frame_same_instant
  /\ index frame_same_instant
     = [timestamp 2024 1 2 9 35 0 0; timestamp 2024 1 2 9 35 0 0]
  /\ ~ strictly_ascending (index frame_same_instant)
  /\ ~ NoDup (index frame_same_instant)
  /\ length (rows frame_same_instant) = 2%nat
  /\ fst (fetch (always (Responded 200 payload_same_instant)) 0 "AAPL" None start)
     = None.
Proof.
  split; [vm_compute; reflexivity|].
  split; [reflexivity|].
  split.
  - intros Hs. apply strictly_ascending_NoDup in Hs.
    apply NoDup_cons in Hs as [Hnot _]. apply Hnot. left.
  - split.
    + intros Hn. apply NoDup_cons in Hn as [Hnot _]. apply Hnot. left.
    + split; [reflexivity|vm_compute; reflexivity].
Qed.

(** C4 at the shipped key.  Whatever the provider would answer (an
    error message, a note, something else), the call shows the
    key-not-set error and requests nothing, so no payload is ever
    classified; with a key that passes the guard the three payloads give
    the API error with the provider's text, the note as a warning, and
    the could-not-fetch error with the raw payload. *)
Theorem shipped_key_classifies_nothing :
  map (fun p => let out := fetch (always (Responded 200 p)) 0 "AAPL" None start in
                (fst out, screen (snd out), network (snd out)))
      [payload_error; payload_note; payload_unknown]
  = [(None, [st_error KeyNotSet], []);
     (None, [st_error KeyNotSet], []);
     (None, [st_error KeyNotSet], [])]
  /\ map (fun p => shown (run decimal_of_str iso_datetime other_key
                             (always (Responded 200 p)) "AAPL" "5min"))
         [payload_error; payload_note; payload_unknown]
     = [[st_error (ApiError (VStr "Invalid API call."))];
        [st_warning (ApiNote (VStr "Our standard API call frequency is 5 calls per minute."))];
        [st_error (CouldNotFetch "AAPL" payload_unknown)]].
Proof. split; vm_compute; reflexivity. Qed.

(** C5, refuted as stated.  With a key that passes the guard, a first
    call meets HTTP status 429: the cache, empty before, now holds
    [None] for the call's arguments.  A minute later the network is
    healthy again (on an empty cache the same call returns the frame),
    but the call is answered [None] from the cache, with the error shown
    again and no second request.  The shipped key shows the same
    mechanism: the [None] of the guard is stored as well. *)
Lemma failure_is_served_from_cache :
  cache (start (F:=Q)) !! ("AAPL", None) = None
  /\ cache world_after_429 !! ("AAPL", None)
     = Some (mkEntry None [st_error (NetworkError (HTTPError 429))] 0)
  /\ network world_after_429 = [url_AAPL_5min]
  /\ fst (fetch_with other_key (always (Responded 200 payload_5min)) 60
                     "AAPL" None start) = Some frame_0935
  /\ fst (fetch_with other_key (always (Responded 200 payload_5min)) 60
                     "AAPL" None world_after_429) = None
  /\ screen (snd (fetch_with other_key (always (Responded 200 payload_5min)) 60
                             "AAPL" None world_after_429))
     = [st_error (NetworkError (HTTPError 429)); st_error (NetworkError (HTTPError 429))]
  /\ network (snd (fetch_with other_key (always (Responded 200 payload_5min)) 60
                              "AAPL" None world_after_429))
     = [url_AAPL_5min]
  /\ cache (snd (fetch (always (Responded 200 payload_5min)) 0 "AAPL" None start))
       !! ("AAPL", None)
     = Some (mkEntry None [st_error KeyNotSet] 0).
Proof. vm_compute. repeat split; reflexivity. Qed.

(** C6 at the shipped key.  Three calls for the same symbol, the second
    inside the hour and the third at its end, with a network that would
    answer the one-bar payload: all three return [None] and nothing is
    ever requested, where the claim has one request for the first two
    calls and a second for the third.  With a key that passes the guard
    the same three calls do request once, then not, then once more. *)
Theorem shipped_key_three_calls :
  fst (session decimal_of_str iso_datetime API_KEY
               (three_calls (always (Responded 200 payload_5min)) 0 1800 3600) start)
  = [None; None; None]
  /\ network (snd (session decimal_of_str iso_datetime API_KEY
                     (three_calls (always (Responded 200 payload_5min)) 0 1800 3600)
                     start)) = []
  /\ network (snd (session decimal_of_str iso_datetime other_key
                     (firstn 2 (three_calls (always (Responded 200 payload_5min))
                                            0 1800 3600))
                     start)) = [url_AAPL_5min]
  /\ network (snd (session decimal_of_str iso_datetime other_key
                     (three_calls (always (Responded 200 payload_5min)) 0 1800 3600)
                     start)) = [url_AAPL_5min; url_AAPL_5min].
Proof. vm_compute. repeat split; reflexivity. Qed.

(** C7 at the shipped key.  For the one-bar payload of the scenario the
    call shows the key-not-set error, returns [None] and requests
    nothing, where the claim has one row; with a key that passes the
    guard the same payload gives the frame of that one row: open 10,
    high 21/2, low 49/5, close 51/5, volume 1000 at
    2024-01-02T09:35:00. *)
Theorem shipped_key_one_bar_payload :
  fst (fetch (always (Responded 200 payload_5min)) 0 "AAPL" None start) = None
  /\ screen (snd (fetch (always (Responded 200 payload_5min)) 0 "AAPL" None start))
     = [st_error KeyNotSet]
  /\ network (snd (fetch (always (Responded 200 payload_5min)) 0 "AAPL" None start)) = []
  /\ fst (fetch_with other_key (always (Responded 200 payload_5min)) 0 "AAPL" None start)
     = Some frame_0935
  /\ length (rows frame_0935) = 1%nat
  /\ index frame_0935 = [timestamp 2024 1 2 9 35 0 0]
  /\ map (quote_field frame_0935 0) ["open"; "high"; "low"; "close"; "volume"]
     = [Some (10 # 1); Some (21 # 2); Some (49 # 5); Some (51 # 5); Some (1000 # 1)]%Q.
Proof. vm_compute. repeat split; reflexivity. Qed.

(** C9 at the shipped key.  Whatever the network, the clock, the symbol
    and the interval, a call on an empty cache requests nothing: line 24
    is not reached.  With a key that passes the guard the call requests
    the URL of line 24 once, with interval "5min" when the caller gives
    none. *)
Theorem shipped_key_sends_no_request :
  (forall (net : string -> Response) (now : Z) (symbol : string)
          (interval : option string),
      network (snd (fetch net now symbol interval start)) = [])
  /\ network (snd (fetch_with other_key (always (Responded 200 payload_5min)) 0
                              "AAPL" None start))
     = ["https://www.alphavantage.co/query?function=TIME_SERIES_INTRADAY&symbol=AAPL&interval=5min&outputsize=compact&apikey=DEMO"]
  /\ network (snd (fetch_with other_key (always (Responded 200 payload_15min)) 0
                              "MSFT" (Some "15min") start))
     = ["https://www.alphavantage.co/query?function=TIME_SERIES_INTRADAY&symbol=MSFT&interval=15min&outputsize=compact&apikey=DEMO"].
Proof.
  split; [|vm_compute; split; reflexivity].
  intros net now symbol interval. unfold fetch, get_stock_data.
  rewrite cache_miss by apply cache_read_start.
  rewrite run_key_not_set by reflexivity. reflexivity.
Qed.

(** C10, refuted as stated.  The key the script uses is the literal of
    line 10 whether the environment is empty or supplies a key of its
    own. *)
Lemma key_is_the_literal_in_every_environment :
  load_API_KEY ∅ = "IOPOMGZYQH86ES0Z"
  /\ load_API_KEY {[ "ALPHAVANTAGE_API_KEY" := "SECRET" ]} = "IOPOMGZYQH86ES0Z"
  /\ ({[ "ALPHAVANTAGE_API_KEY" := "SECRET" ]} : gmap string string)
       !! "ALPHAVANTAGE_API_KEY" = Some "SECRET".
Proof. repeat split; reflexivity. Qed.

(** C10, as the code has it.  The credential is the string literal
    assigned to the module global at line 10: it is the same in every
    environment, and it is the very literal the guard of line 18
    compares with. *)
Theorem key_is_hard_coded :
  forall environ : gmap string string,
    load_API_KEY environ = "IOPOMGZYQH86ES0Z"
    /\ key_not_set (load_API_KEY environ) = true.
Proof. intros environ. split; reflexivity. Qed.

(** ** The general statements at the sample payloads *)

Lemma sample_series_wf :
  dict_wf series_two_bars /\ dict_wf series_malformed.
Proof. split; apply (bool_decide_unpack _); vm_compute; exact I. Qed.

Lemma sorted_frame_keeps_every_entry_witness :
  exists df : Quotes,
    fst (fetch_with other_key (always (Responded 200 payload_two_bars)) 0
                    "AAPL" None start) = Some df
    /\ ascending (index df)
    /\ Permutation (map Some (index df)) (map iso_datetime (keys series_two_bars))
    /\ length (rows df) = length series_two_bars
    /\ (strictly_ascending (index df)
        <-> NoDup (map iso_datetime (keys series_two_bars))).
Proof.
  apply (sorted_frame_keeps_every_entry decimal_of_str iso_datetime
           other_key (always (Responded 200 payload_two_bars)) 0 "AAPL" None start
           200 payload_two_bars "Time Series (5min)" series_two_bars).
  - reflexivity.
  - apply cache_read_start.
  - reflexivity.
  - lia.
  - reflexivity.
  - reflexivity.
  - reflexivity.
  - apply sample_series_wf.
  - vm_compute. reflexivity.
Defined.

Lemma http_failure_is_cached_witness :
  fst (fetch_with other_key (always (Responded 429 [])) 0 "AAPL" None start) = None
  /\ cache world_after_429 !! ("AAPL", None)
     = Some (mkEntry None [st_error (NetworkError (HTTPError 429))] 0)
  /\ forall (net' : string -> Response) (now' : Z),
       (now' < 0 + ttl)%Z ->
       fst (fetch_with other_key net' now' "AAPL" None world_after_429) = None
       /\ network (snd (fetch_with other_key net' now' "AAPL" None world_after_429))
          = network world_after_429.
Proof.
  pose proof (http_failure_is_cached decimal_of_str iso_datetime
                other_key (always (Responded 429 [])) 0 "AAPL" None start
                (HTTPError 429) eq_refl (cache_read_start _ _) eq_refl)
    as (Hret & _ & _ & Hcache & Hserved & _).
  split; [exact Hret|]. split; [exact Hcache|exact Hserved].
Defined.

Lemma malformed_entry_fails_whole_fetch_witness :
  series_ok decimal_of_str iso_datetime series_malformed = false
  /\ fst (fetch_with other_key (always (Responded 200 payload_malformed)) 0
                     "AAPL" None start) = None
  /\ screen (snd (fetch_with other_key (always (Responded 200 payload_malformed)) 0
                             "AAPL" None start))
     = [st_error (UnexpectedError ValueError)].
Proof.
  assert (Hbad : series_ok decimal_of_str iso_datetime series_malformed = false)
    by (vm_compute; reflexivity).
  destruct (malformed_entry_fails_whole_fetch decimal_of_str iso_datetime
              other_key (always (Responded 200 payload_malformed)) 0 "AAPL" None start
              200 payload_malformed "Time Series (5min)" series_malformed
              (cache_read_start _ _) eq_refl eq_refl eq_refl
              (proj2 sample_series_wf) Hbad)
    as [Hret Hshown].
  split; [exact Hbad|]. split; [exact Hret|].
  apply Hshown; [reflexivity|lia|reflexivity].
Defined.

(** * Further properties of the fetcher *)

Lemma mapE_Ok_inv {A B : Type} (f : A -> Exc B) (l : list A) (l' : list B) :
  mapE f l = Ok l' -> Forall2 (fun a b => f a = Ok b) l l'.
Proof.
  revert l'. induction l as [|a l IH]; simpl; intros l' H.
  - injection H as <-. constructor.
  - destruct (f a) as [b|e] eqn:Hb; simpl in H; [|discriminate].
    destruct (mapE f l) as [bs|e] eqn:Hbs; simpl in H; [|discriminate].
    injection H as <-. constructor; [exact Hb|apply IH; reflexivity].
Qed.

Lemma mapE_Raise_inv {A B : Type} (f : A -> Exc B) (l : list A) (e : Exception) :
  mapE f l = Raise e -> exists a, In a l /\ f a = Raise e.
Proof.
  induction l as [|a l IH]; simpl; intros H; [discriminate|].
  destruct (f a) as [b|e'] eqn:Hb; simpl in H.
  - destruct (mapE f l) as [bs|e'] eqn:Hbs; simpl in H; [discriminate|].
    injection H as ->. destruct (IH eq_refl) as (a' & Hin & Ha').
    exists a'. split; [right|]; assumption.
  - injection H as ->. exists a. split; [left; reflexivity|exact Hb].
Qed.

Lemma rename_column_not_provider (c : string) : ~ In (rename_column c) provider_names.
Proof.
  unfold rename_column.
  destruct (String.eqb c "1. open") eqn:E1; [cbv; intuition discriminate|].
  destruct (String.eqb c "2. high") eqn:E2; [cbv; intuition discriminate|].
  destruct (String.eqb c "3. low") eqn:E3; [cbv; intuition discriminate|].
  destruct (String.eqb c "4. close") eqn:E4; [cbv; intuition discriminate|].
  destruct (String.eqb c "5. volume") eqn:E5; [cbv; intuition discriminate|].
  apply String.eqb_neq in E1, E2, E3, E4, E5.
  unfold provider_names. simpl. intuition congruence.
Qed.

Section Invariants.

Context {F : Type}.
Variable float_of_str : string -> option F.
Variable datetime_of_str : string -> option Z.

Local Abbreviation run' := (run float_of_str datetime_of_str).
Local Abbreviation normalize' := (normalize float_of_str datetime_of_str).
Local Abbreviation try_block' := (try_block float_of_str datetime_of_str).
Local Abbreviation fetch' := (get_stock_data_with float_of_str datetime_of_str).
Local Abbreviation session' := (session float_of_str datetime_of_str).

Lemma from_dict_rectangular (v : Value) (df : DataFrame string (option string)) :
  from_dict v = Ok df -> rectangular df.
Proof.
  unfold rectangular. destruct v as [s|fields|ts]; simpl; [destruct s; discriminate| |].
  - destruct fields as [|item fields]; intros [= <-]; cbn [rows columns].
    + constructor.
    + apply Forall_forall. intros r Hr. apply list_elem_of_In in Hr.
      change (In r (map (fun item => (fst item, [Some (snd item)])) (item :: fields))) in Hr.
      apply in_map_iff in Hr as (it & <- & _). reflexivity.
  - intros [= <-]. cbn [rows columns]. apply Forall_forall. intros r Hr.
    apply list_elem_of_In, in_map_iff in Hr as (item & <- & _).
    cbn [snd]. apply length_map.
Qed.

Lemma astype_float_rows {I : Type} (df : DataFrame I (option string))
    (df' : DataFrame I (option F)) :
  astype_float float_of_str df = Ok df' ->
  columns df' = columns df
  /\ Forall2 (fun r r' => length (snd r') = length (snd r)) (rows df) (rows df').
Proof.
  unfold astype_float.
  destruct (mapE _ (rows df)) as [rs|e] eqn:E; simpl; [|discriminate].
  intros [= <-]. cbn [rows columns]. split; [reflexivity|].
  apply mapE_Ok_inv in E. eapply Forall2_impl; [exact E|].
  intros r r' Hr. cbn beta in Hr.
  destruct (mapE (astype_float_cell float_of_str) (snd r)) as [cs|e] eqn:Ecs;
    simpl in Hr; [|discriminate].
  injection Hr as <-. cbn [snd]. apply mapE_Ok_inv in Ecs.
  symmetry. eapply Forall2_length, Ecs.
Qed.

Lemma to_datetime_rows_inv {A : Type} (df : DataFrame string A) (df' : DataFrame Z A) :
  to_datetime datetime_of_str df = Ok df' ->
  columns df' = columns df /\ map snd (rows df') = map snd (rows df).
Proof.
  unfold to_datetime.
  destruct (mapE _ (rows df)) as [rs|e] eqn:E; simpl; [|discriminate].
  intros [= <-]. cbn [rows columns]. split; [reflexivity|].
  apply mapE_Ok_inv in E. induction E as [|r r' l l' Hr _ IH]; [reflexivity|].
  simpl. rewrite IH. f_equal. unfold to_datetime_label in Hr.
  destruct (datetime_of_str (fst r)); [|discriminate]. injection Hr as <-. reflexivity.
Qed.

(** What lines 47-59 return is sorted, rectangular and free of the
    provider's field names, whatever the value they are given. *)
Lemma normalize_frame (v : Value) (df : Quotes) :
  normalize' v = Ok df ->
  ascending (index df)
  /\ rectangular df
  /\ (forall c, In c (columns df) -> ~ In c provider_names).
Proof.
  unfold normalize.
  destruct (from_dict v) as [df0|e] eqn:E0; simpl; [|discriminate].
  destruct (astype_float float_of_str (rename df0)) as [df1|e] eqn:E1; simpl; [|discriminate].
  destruct (to_datetime datetime_of_str df1) as [df2|e] eqn:E2; simpl; [|discriminate].
  intros [= <-]. unfold index, sort_index, rectangular. cbn [rows columns].
  apply from_dict_rectangular in E0. unfold rectangular in E0.
  apply astype_float_rows in E1 as [Hc1 Hr1]. cbn [rename rows columns] in Hc1, Hr1.
  apply to_datetime_rows_inv in E2 as [Hc2 Hr2].
  split; [apply sort_rows_sorted|]. split.
  - assert (Hall : Forall (fun cells : list (option F) => length cells = length (columns df2))
                          (map snd (rows df2))).
    { rewrite Hr2, Hc2, Hc1, length_map. clear -E0 Hr1.
      induction Hr1 as [|r r' l l' Hr _ IH]; [constructor|].
      apply Forall_cons in E0 as [Hr0 E0]. simpl. constructor; [congruence|exact (IH E0)]. }
    apply Forall_forall. intros r Hr. rewrite Forall_forall in Hall. apply Hall.
    apply list_elem_of_In. apply in_map. apply list_elem_of_In in Hr.
    eapply Permutation_in; [apply sort_rows_perm|exact Hr].
  - intros c Hc. rewrite Hc2, Hc1 in Hc. apply in_map_iff in Hc as (c0 & <- & _).
    apply rename_column_not_provider.
Qed.

Lemma normalize_raises (v : Value) (e : Exception) :
  normalize' v = Raise e -> e = AttributeError \/ e = ValueError.
Proof.
  unfold normalize.
  destruct (from_dict v) as [df0|e0] eqn:E0; simpl.
  - destruct (astype_float float_of_str (rename df0)) as [df1|e1] eqn:E1; simpl.
    + destruct (to_datetime datetime_of_str df1) as [df2|e2] eqn:E2; simpl; [discriminate|].
      intros [= <-]. right. unfold to_datetime in E2.
      destruct (mapE _ (rows df1)) as [rs|e'] eqn:E; simpl in E2; [discriminate|].
      injection E2 as <-. apply mapE_Raise_inv in E as (r & _ & Hr).
      unfold to_datetime_label in Hr. destruct (datetime_of_str (fst r)); congruence.
    + intros [= <-]. right. unfold astype_float in E1.
      destruct (mapE _ (rows (rename df0))) as [rs|e'] eqn:E; simpl in E1; [discriminate|].
      injection E1 as <-. apply mapE_Raise_inv in E as (r & _ & Hr). cbn beta in Hr.
      destruct (mapE (astype_float_cell float_of_str) (snd r)) as [cs|e''] eqn:Ecs;
        simpl in Hr; [discriminate|].
      injection Hr as <-. apply mapE_Raise_inv in Ecs as (c & _ & Hc).
      unfold astype_float_cell in Hc. destruct c as [s|]; [|discriminate].
      destruct (float_of_str s); congruence.
  - destruct v as [s|fields|ts]; simpl in E0.
    + destruct s; injection E0 as <-; intros [= <-]; [right|left]; reflexivity.
    + destruct fields; discriminate.
    + discriminate.
Qed.

(** No character of a string contains "Time Series". *)
Lemma characters_no_time_series (text : string) :
  List.find (contains "Time Series") (characters text) = None.
Proof.
  induction text as [|c text IH]; [reflexivity|].
  cbn [characters List.find].
  replace (contains "Time Series" (String c "")) with false; [exact IH|].
  destruct c as [[] [] [] [] [] [] [] []]; reflexivity.
Qed.

(** A list that holds the string "Time Series (5min)" holds an item that
    line 42 stops at, unless an item before it stops the scan with a
    [TypeError]. *)
Lemma first_item_found (items : list Json) :
  in_list "Time Series (5min)" items = true ->
  first_item "Time Series" items = Raise TypeError
  \/ exists key, first_item "Time Series" items = Ok (Some key).
Proof.
  unfold in_list. induction items as [|key items IH]; [discriminate|].
  cbn [existsb first_item]. intros H.
  destruct key as [|b|n|t|l|d]; cbn [in_item bind]; try (left; reflexivity).
  - destruct (contains "Time Series" t) eqn:Et; [right; eauto|].
    cbn [equals_str] in H. destruct (String.eqb "Time Series (5min)" t) eqn:E.
    + apply String.eqb_eq in E. subst t. vm_compute in Et. discriminate.
    + exact (IH H).
  - destruct (in_list "Time Series" l); [right; eauto|exact (IH H)].
  - destruct (existsb _ (keys d)); [right; eauto|exact (IH H)].
Qed.

(** What lines 31-47 do with a body that is not an object: a
    [TypeError], the could-not-fetch error, or, on a string that contains
    "Time Series (5min)", the error of line 44. *)
Lemma on_body_cases {A : Type} (symbol : string) (data : Body) :
  on_body (A:=A) symbol data = Raise TypeError
  \/ on_body (A:=A) symbol data = Ok ([st_error (CouldNotFetchBody symbol data)], None)
  \/ (exists text, data = BString text
                   /\ contains "Time Series (5min)" text = true
                   /\ on_body (A:=A) symbol data
                      = Ok ([st_error (NoTimeSeriesBody symbol data)], None)).
Proof.
  destruct data as [|b|n|text|items]; cbn [on_body]; try (left; reflexivity).
  - destruct (contains "Time Series (5min)" text) eqn:E5; cbn [negb].
    + rewrite characters_no_time_series. right. right. exists text. auto.
    + destruct (contains "Error Message" text); [left; reflexivity|].
      destruct (contains "Note" text); [left; reflexivity|right; left; reflexivity].
  - destruct (in_list "Time Series (5min)" items) eqn:E5; cbn [negb].
    + destruct (first_item_found items E5) as [-> | [key ->]]; left; reflexivity.
    + destruct (in_list "Error Message" items); [left; reflexivity|].
      destruct (in_list "Note" items); [left; reflexivity|right; left; reflexivity].
Qed.

Lemma on_body_string {A : Type} (symbol text : string) :
  contains "Time Series (5min)" text = true ->
  on_body (A:=A) symbol (BString text)
  = Ok ([st_error (NoTimeSeriesBody symbol (BString text))], None).
Proof.
  intros E5. cbn [on_body]. rewrite E5. cbn [negb].
  rewrite characters_no_time_series. reflexivity.
Qed.

(** When the payload has the key of line 31, the scan of line 42 finds a
    key, and that key has a value. *)
Lemma time_series_key_total (data : Payload) :
  dict_in "Time Series (5min)" data = true ->
  exists k v, time_series_key data = Some k /\ dict_get k data = Some v.
Proof.
  intros H5. unfold time_series_key.
  destruct (List.find (contains "Time Series") (keys data)) as [k|] eqn:E.
  - apply find_some in E as [Hin _]. apply dict_in_keys, dict_in_true in Hin as [v Hv].
    exists k, v. split; [reflexivity|exact Hv].
  - apply dict_in_keys in H5.
    pose proof (find_none _ _ E _ H5) as Hno. vm_compute in Hno. discriminate.
Qed.

Lemma run_returned_normalized (api_key : string) (net : string -> Response)
    (symbol interval : string) (df : Quotes) :
  returned (run' api_key net symbol interval) = Some df ->
  exists v, normalize' v = Ok df.
Proof.
  unfold run. destruct (key_not_set api_key); [discriminate|]. cbn [returned].
  destruct (net (query_url api_key symbol interval))
    as [cause|status data|status data|status flag];
    [discriminate| | |];
    unfold try_block;
    (destruct (raise_for_status status) as [[]|e];
     [|simpl; destruct (is_RequestException e); discriminate]);
    cbn [bind].
  - destruct (dict_in "Time Series (5min)" data); [|discriminate]. cbn [negb].
    destruct (time_series_key data) as [k|]; [|discriminate].
    destruct (dict_get k data) as [v|]; [|discriminate]. cbn [bind].
    destruct (normalize' v) as [df'|e] eqn:E;
      [|simpl; destruct (is_RequestException e); discriminate].
    simpl. intros [= <-]. exists v. exact E.
  - destruct (on_body_cases (A:=Quotes (F:=F)) symbol data) as [-> | [-> | (text & _ & _ & ->)]];
      discriminate.
  - simpl. destruct flag; discriminate.
Qed.

(** X1.  Every execution of the body ends in one of two ways: it returns
    a frame and shows nothing, or it returns [None] and shows exactly one
    element. *)
Theorem frame_or_one_element (api_key : string) (net : string -> Response)
    (symbol interval : string) :
  (exists df, returned (run' api_key net symbol interval) = Some df
              /\ shown (run' api_key net symbol interval) = [])
  \/ (returned (run' api_key net symbol interval) = None
      /\ exists el, shown (run' api_key net symbol interval) = [el]).
Proof.
  unfold run. destruct (key_not_set api_key); [right; split; eauto|].
  cbn [returned shown].
  destruct (net (query_url api_key symbol interval))
    as [cause|status data|status data|status flag];
    [right; split; eauto| | |];
    unfold try_block;
    (destruct (raise_for_status status) as [[]|e];
     [|right; simpl; destruct (is_RequestException e); split; eauto]);
    cbn [bind].
  - destruct (dict_in "Time Series (5min)" data); cbn [negb].
    + destruct (time_series_key data) as [k|]; [|right; split; eauto].
      destruct (dict_get k data) as [v|]; cbn [bind]; [|right; split; eauto].
      destruct (normalize' v) as [df|e]; cbn [bind].
      * left. exists df. split; reflexivity.
      * right. simpl. destruct (is_RequestException e); split; eauto.
    + right. unfold classify. cbn [except fst snd].
      destruct (dict_get "Error Message" data); [split; eauto|].
      destruct (dict_get "Note" data); split; eauto.
  - right.
    destruct (on_body_cases (A:=Quotes (F:=F)) symbol data) as [-> | [-> | (text & _ & _ & ->)]];
      split; eauto.
  - right. simpl. destruct flag; split; eauto.
Qed.

(** What is shown never includes the error of line 44 over an object,
    nor a [KeyError]: once line 31 has found the key "Time Series (5min)"
    in an object, the scan of line 42 finds a key of that object. *)
Lemma shown_elements (api_key : string) (net : string -> Response)
    (symbol interval : string) (el : Element) :
  In el (shown (run' api_key net symbol interval)) ->
  (forall s d, el <> st_error (NoTimeSeries s d))
  /\ el <> st_error (UnexpectedError KeyError)
  /\ (forall s b, el = st_error (NoTimeSeriesBody s b) ->
       key_not_set api_key = false
       /\ s = symbol
       /\ exists status text,
            b = BString text
            /\ net (query_url api_key symbol interval) = RespondedOther status b
            /\ ~ (400 <= status < 600)%Z
            /\ contains "Time Series (5min)" text = true).
Proof.
  assert (Hother : forall el' : Element,
             (forall s d, el' <> st_error (NoTimeSeries s d)) ->
             el' <> st_error (UnexpectedError KeyError) ->
             (forall s b, el' <> st_error (NoTimeSeriesBody s b)) ->
             In el [el'] ->
             (forall s d, el <> st_error (NoTimeSeries s d))
             /\ el <> st_error (UnexpectedError KeyError)
             /\ (forall s b, el = st_error (NoTimeSeriesBody s b) ->
                  key_not_set api_key = false
                  /\ s = symbol
                  /\ exists status text,
                       b = BString text
                       /\ net (query_url api_key symbol interval) = RespondedOther status b
                       /\ ~ (400 <= status < 600)%Z
                       /\ contains "Time Series (5min)" text = true)).
  { intros el' H1 H2 H3 [<-|[]]. split; [exact H1|]. split; [exact H2|].
    intros s b Hel. destruct (H3 s b Hel). }
  unfold run. destruct (key_not_set api_key) eqn:Hkey.
  { apply Hother; intros; discriminate. }
  cbn [shown].
  destruct (net (query_url api_key symbol interval))
    as [cause|status data|status data|status flag] eqn:Hnet.
  { apply Hother; intros; discriminate. }
  all: unfold try_block; destruct (raise_for_status status) as [[]|e] eqn:Est;
    [|unfold raise_for_status in Est;
      destruct ((400 <=? status) && (status <? 600))%Z; [|discriminate];
      injection Est as <-; cbn; apply Hother; intros; discriminate].
  all: cbn [bind].
  - destruct (dict_in "Time Series (5min)" data) eqn:H5; cbn [negb].
    + destruct (time_series_key_total data H5) as (k & v & -> & ->). cbn [bind].
      destruct (normalize' v) as [df|e] eqn:E; cbn [bind except fst].
      * intros [].
      * destruct (normalize_raises _ _ E) as [-> | ->]; cbn [is_RequestException];
          apply Hother; intros; discriminate.
    + unfold classify. cbn [except fst].
      destruct (dict_get "Error Message" data);
        [apply Hother; intros; discriminate|].
      destruct (dict_get "Note" data); apply Hother; intros; discriminate.
  - destruct (on_body_cases (A:=Quotes (F:=F)) symbol data)
      as [-> | [-> | (text & -> & E5 & ->)]]; cbn [except fst is_RequestException];
      [apply Hother; intros; discriminate..|].
    intros [<-|[]]. split; [intros; discriminate|]. split; [discriminate|].
    intros s b [= <- <-]. split; [reflexivity|]. split; [reflexivity|].
    exists status, text. repeat split; try assumption.
    unfold raise_for_status in Est.
    destruct ((400 <=? status) && (status <? 600))%Z eqn:Eb; [discriminate|].
    apply andb_false_iff in Eb as [Eb|Eb];
      [apply Z.leb_gt in Eb|apply Z.ltb_ge in Eb]; lia.
  - cbn. destruct flag; apply Hother; intros; discriminate.
Qed.

(** X2.  The error of line 44 (no key containing "Time Series") is shown
    for one kind of response only: a body that decodes to a JSON string
    containing "Time Series (5min)", whose characters the scan of line 42
    goes through.  For a body that decodes to an object it is never
    shown, and no [KeyError] from [data[time_series_key]] is ever
    reported: once line 31 has found the key "Time Series (5min)", the
    scan finds a key of the object. *)
Theorem line_44_error_only_for_a_string_body (api_key : string)
    (net : string -> Response) (symbol interval : string) :
  (forall s d, ~ In (st_error (NoTimeSeries s d))
                    (shown (run' api_key net symbol interval)))
  /\ ~ In (st_error (UnexpectedError KeyError))
          (shown (run' api_key net symbol interval))
  /\ (forall s b,
        In (st_error (NoTimeSeriesBody s b)) (shown (run' api_key net symbol interval))
        <-> key_not_set api_key = false
            /\ s = symbol
            /\ exists status text,
                 b = BString text
                 /\ net (query_url api_key symbol interval) = RespondedOther status b
                 /\ ~ (400 <= status < 600)%Z
                 /\ contains "Time Series (5min)" text = true).
Proof.
  split; [|split].
  - intros s d Hin. destruct (shown_elements _ _ _ _ _ Hin) as [H _].
    exact (H s d eq_refl).
  - intros Hin. destruct (shown_elements _ _ _ _ _ Hin) as (_ & H & _).
    exact (H eq_refl).
  - intros s b. split.
    + intros Hin. destruct (shown_elements _ _ _ _ _ Hin) as (_ & _ & H).
      exact (H s b eq_refl).
    + intros (Hkey & -> & status & text & -> & Hnet & Hst & E5).
      unfold run. rewrite Hkey, Hnet. cbn [shown try_block].
      rewrite (raise_for_status_ok _ Hst). cbn [bind].
      rewrite (on_body_string _ _ E5). left. reflexivity.
Qed.

(** One call asks the network at most once, and only for a URL of line
    24. *)
Lemma call_requests (api_key : string) (net : string -> Response) (now : Z)
    (symbol : string) (interval : option string) (w : World) :
  exists new,
    network (snd (fetch' api_key net now symbol interval w)) = (network w ++ new)%list
    /\ (length new <= 1)%nat
    /\ Forall (fun u => exists s i, u = query_url api_key s i) new.
Proof.
  unfold get_stock_data_with.
  destruct (cache_read w (symbol, interval) now) as [e|]; cbn [snd network].
  - exists []. rewrite app_nil_r. split; [reflexivity|]. split; [simpl; lia|constructor].
  - unfold run. destruct (key_not_set api_key); cbn [requested].
    + exists []. split; [reflexivity|]. split; [simpl; lia|constructor].
    + eexists. split; [reflexivity|]. split; [simpl; lia|].
      constructor; [eauto|constructor].
Qed.

(** X3.  Over any session the network is asked at most once per call
    (there is no retry), earlier requests stay in the log, and every
    request is for a URL built by line 24 with the configured key. *)
Theorem at_most_one_request_per_call (api_key : string) (cs : list Call) (w : World) :
  exists new,
    network (snd (session' api_key cs w)) = (network w ++ new)%list
    /\ (length new <= length cs)%nat
    /\ Forall (fun u => exists s i, u = query_url api_key s i) new.
Proof.
  revert w. induction cs as [|c cs IH]; intros w; cbn [session snd].
  - exists []. rewrite app_nil_r. split; [reflexivity|]. split; [simpl; lia|constructor].
  - destruct (call_requests api_key (net_of c) (at_time c) (symbol_of c) (interval_of c) w)
      as (new1 & H1 & Hlen1 & Hurl1).
    destruct (IH (snd (fetch' api_key (net_of c) (at_time c) (symbol_of c)
                              (interval_of c) w)))
      as (new2 & H2 & Hlen2 & Hurl2).
    exists (new1 ++ new2)%list. rewrite H2, H1, app_assoc.
    split; [reflexivity|]. split; [rewrite length_app; simpl; lia|].
    apply Forall_app. split; assumption.
Qed.

Lemma call_keeps_frames_ok (api_key : string) (net : string -> Response) (now : Z)
    (symbol : string) (interval : option string) (w : World) :
  frames_ok w ->
  (forall df, fst (fetch' api_key net now symbol interval w) = Some df -> frame_ok df)
  /\ frames_ok (snd (fetch' api_key net now symbol interval w)).
Proof.
  intros Hw. unfold get_stock_data_with.
  destruct (cache_read w (symbol, interval) now) as [e|] eqn:E; cbn [fst snd].
  - apply cache_read_Some in E as [E _]. split; [|exact Hw].
    intros df Hdf. exact (Hw _ _ _ E Hdf).
  - assert (Hrun : forall df,
               returned (run' api_key net symbol (default default_interval interval))
               = Some df -> frame_ok df).
    { intros df Hdf. apply run_returned_normalized in Hdf as [v Hv].
      exact (normalize_frame _ _ Hv). }
    split; [exact Hrun|].
    intros k e df. cbn [cache]. rewrite lookup_insert. case_decide.
    + intros [= <-]. cbn [value]. apply Hrun.
    + apply Hw.
Qed.

Lemma session_frames_ok (api_key : string) (cs : list Call) (w : World) :
  frames_ok w ->
  Forall (fun r : option Quotes => forall df, r = Some df -> frame_ok df)
         (fst (session' api_key cs w)).
Proof.
  revert w. induction cs as [|c cs IH]; intros w Hw; cbn [session fst]; [constructor|].
  destruct (call_keeps_frames_ok api_key (net_of c) (at_time c) (symbol_of c)
              (interval_of c) w Hw) as [Hret Hw'].
  constructor; [exact Hret|exact (IH _ Hw')].
Qed.

Lemma frames_ok_start : frames_ok (F:=F) start.
Proof. intros k e df. unfold start. cbn [cache]. rewrite lookup_empty. discriminate. Qed.

(** X4.  Every frame [get_stock_data] returns over a session that starts
    with an empty cache, from the network or from the cache, is sorted in
    ascending order of timestamp, has one cell per column in every row,
    and has no column that still bears one of the provider's field names
    ("1. open", ..., "5. volume"). *)
Theorem returned_frames_are_well_formed (api_key : string) (cs : list Call) :
  Forall (fun r : option Quotes => forall df, r = Some df -> frame_ok df)
         (fst (session' api_key cs start)).
Proof. apply session_frames_ok, frames_ok_start. Qed.

Lemma last_map {A B : Type} (f : A -> B) (l : list A) :
  last (map f l) = option_map f (last l).
Proof.
  induction l as [|a l IH]; [reflexivity|].
  destruct l as [|b l]; [reflexivity|]. exact IH.
Qed.

(** In a sorted index the last timestamp is the greatest. *)
Lemma ascending_last (l : list Z) (t : Z) :
  ascending l -> last l = Some t -> Forall (fun t' => (t' <= t)%Z) l.
Proof.
  unfold ascending. induction l as [|x l IH]; intros Hs Hl; [constructor|].
  apply StronglySorted_inv in Hs as [Hs Hall].
  destruct l as [|y l].
  - simpl in Hl. injection Hl as <-. constructor; [lia|constructor].
  - change (last (y :: l) = Some t) in Hl. pose proof (IH Hs Hl) as Hle.
    constructor; [|exact Hle].
    apply Forall_cons in Hall as [Hxy _]. apply Forall_cons in Hle as [Hyt _]. lia.
Qed.

(** X13.  In every frame returned over a session that starts with an
    empty cache, the last row, which line 103 reads as the latest bar,
    carries the greatest timestamp of the frame, whatever the order of
    the entries in the payload. *)
Theorem last_row_is_most_recent (api_key : string) (cs : list Call) :
  Forall (fun r : option Quotes =>
            forall df latest, r = Some df -> last (rows df) = Some latest ->
                              Forall (fun t => (t <= fst latest)%Z) (index df))
         (fst (session' api_key cs start)).
Proof.
  eapply Forall_impl; [apply (session_frames_ok api_key cs start), frames_ok_start|].
  intros r Hr df latest -> Hlast. destruct (Hr df eq_refl) as [Hasc _].
  apply (ascending_last _ _ Hasc). unfold index.
  rewrite last_map, Hlast. reflexivity.
Qed.

End Invariants.

(** * Further properties of the cache and of the classification *)

Lemma no_member_nil {A : Type} (l : list A) : (forall x, ~ In x l) -> l = [].
Proof. destruct l as [|a l]; [reflexivity|]. intros H. destruct (H a). left. reflexivity. Qed.

(** Records without fields give a frame without columns. *)
Lemma empty_records_no_columns (ts : TimeSeries) :
  Forall (fun item : string * Bar => snd item = []) ts -> union_columns ts = [].
Proof.
  intros Hall. apply no_member_nil. intros c Hc.
  apply in_union_columns in Hc as (item & Hin & Hc).
  rewrite Forall_forall in Hall. apply list_elem_of_In in Hin.
  rewrite (Hall item Hin) in Hc. destruct Hc.
Qed.

Section CacheAndClassification.

Context {F : Type}.
Variable float_of_str : string -> option F.
Variable datetime_of_str : string -> option Z.

Local Abbreviation run' := (run float_of_str datetime_of_str).
Local Abbreviation fetch' := (get_stock_data_with float_of_str datetime_of_str).

(** X5.  With a key that passes the guard, a response that is not a
    4xx/5xx and a payload without the key "Time Series (5min)", a call
    that misses the cache requests the URL once, returns [None] and shows
    one element chosen by the payload alone: the API error with the value
    under "Error Message" when that key is present (whether or not
    "Note" is present too), else the note as a warning when "Note" is
    present, else the could-not-fetch error with the symbol and the whole
    payload. *)
Theorem payload_without_5min_key_is_classified
    (api_key : string) (net : string -> Response) (now : Z) (symbol : string)
    (interval : option string) (w : World) (status : Z) (data : Payload) :
  key_not_set api_key = false ->
  cache_read w (symbol, interval) now = None ->
  net (query_url api_key symbol (default default_interval interval))
    = Responded status data ->
  ~ (400 <= status < 600)%Z ->
  dict_in "Time Series (5min)" data = false ->
  fst (fetch' api_key net now symbol interval w) = None
  /\ network (snd (fetch' api_key net now symbol interval w))
     = (network w ++ [query_url api_key symbol (default default_interval interval)])%list
  /\ screen (snd (fetch' api_key net now symbol interval w))
     = (screen w
        ++ [match dict_get "Error Message" data, dict_get "Note" data with
            | Some m, _ => st_error (ApiError m)
            | None, Some n => st_warning (ApiNote n)
            | None, None => st_error (CouldNotFetch symbol data)
            end])%list.
Proof.
  intros Hkey Hmiss Hnet Hst H5.
  rewrite (cache_miss _ _ _ _ _ _ _ _ Hmiss).
  rewrite (run_without_5min _ _ _ _ _ _ _ _ Hkey Hnet Hst H5).
  cbn [fst snd returned shown requested screen network]. unfold classify.
  destruct (dict_get "Error Message" data); [repeat split|].
  destruct (dict_get "Note" data); repeat split.
Qed.

(** X6.  After a call that ran the body, the same call is answered from
    the cache while the clock reads less than the time of that call plus
    3600: it returns the same value and leaves network log and cache as
    they were, whatever the network would answer by then.  From that
    reading of the clock on the body runs again, against the network of
    that moment. *)
Theorem cache_serves_for_an_hour
    (api_key : string) (net net' : string -> Response) (now now' : Z)
    (symbol : string) (interval : option string) (w : World) :
  cache_read w (symbol, interval) now = None ->
  ((now' < now + 3600)%Z ->
   fst (fetch' api_key net' now' symbol interval
               (snd (fetch' api_key net now symbol interval w)))
   = fst (fetch' api_key net now symbol interval w)
   /\ network (snd (fetch' api_key net' now' symbol interval
                           (snd (fetch' api_key net now symbol interval w))))
      = network (snd (fetch' api_key net now symbol interval w))
   /\ cache (snd (fetch' api_key net' now' symbol interval
                         (snd (fetch' api_key net now symbol interval w))))
      = cache (snd (fetch' api_key net now symbol interval w)))
  /\ ((now + 3600 <= now')%Z ->
      fst (fetch' api_key net' now' symbol interval
                  (snd (fetch' api_key net now symbol interval w)))
      = returned (run' api_key net' symbol (default default_interval interval))
      /\ network (snd (fetch' api_key net' now' symbol interval
                              (snd (fetch' api_key net now symbol interval w))))
         = (network (snd (fetch' api_key net now symbol interval w))
            ++ requested (run' api_key net' symbol (default default_interval interval)))%list).
Proof.
  intros Hmiss. split.
  - intros Hlt.
    rewrite (served_within_window _ _ api_key net net' now now' _ _ _ Hmiss Hlt).
    rewrite (cache_miss _ _ _ _ _ _ _ _ Hmiss). repeat split.
  - intros Hge.
    exact (runs_again_after_window _ _ api_key net net' now now' _ _ _ Hmiss Hge).
Qed.

(** X7.  Being served from the cache does not prolong an entry: after a
    call that ran the body at [t0] and a hit at [t1], a call at [t2] with
    [t0 + 3600 <= t2] runs the body again, even when [t2 < t1 + 3600]. *)
Theorem hit_does_not_prolong_entry
    (api_key : string) (net0 net1 net2 : string -> Response) (t0 t1 t2 : Z)
    (symbol : string) (interval : option string) (w : World) :
  cache_read w (symbol, interval) t0 = None ->
  (t1 < t0 + 3600)%Z ->
  (t0 + 3600 <= t2)%Z ->
  fst (fetch' api_key net2 t2 symbol interval
         (snd (fetch' api_key net1 t1 symbol interval
                 (snd (fetch' api_key net0 t0 symbol interval w)))))
  = returned (run' api_key net2 symbol (default default_interval interval))
  /\ cache (snd (fetch' api_key net2 t2 symbol interval
                   (snd (fetch' api_key net1 t1 symbol interval
                           (snd (fetch' api_key net0 t0 symbol interval w))))))
       !! (symbol, interval)
     = Some (mkEntry (returned (run' api_key net2 symbol
                                     (default default_interval interval)))
                     (shown (run' api_key net2 symbol
                                  (default default_interval interval)))
                     t2).
Proof.
  intros Hmiss Hlt Hge.
  rewrite (served_within_window _ _ api_key net0 net1 t0 t1 _ _ _ Hmiss Hlt).
  rewrite (cache_miss _ _ _ _ _ _ _ _ Hmiss). cbn [snd cache].
  assert (Hexp : cache_read
            (mkWorld
               (<[(symbol, interval) :=
                    mkEntry (returned (run' api_key net0 symbol
                                            (default default_interval interval)))
                            (shown (run' api_key net0 symbol
                                         (default default_interval interval)))
                            t0]> (cache w))
               ((screen w ++ shown (run' api_key net0 symbol
                                         (default default_interval interval)))
                ++ shown (run' api_key net0 symbol (default default_interval interval)))
               (network w ++ requested (run' api_key net0 symbol
                                             (default default_interval interval))))
            (symbol, interval) t2 = None).
  { rewrite cache_read_after_store. cbn [stored_at]. unfold ttl.
    apply Z.ltb_ge in Hge. rewrite Hge. reflexivity. }
  rewrite (cache_miss _ _ _ _ _ _ _ _ Hexp). cbn [fst snd cache].
  split; [reflexivity|]. apply lookup_insert_eq.
Qed.

(** X8.  A call never changes what the cache holds for other arguments:
    after a call for one symbol and interval, a call with different
    arguments returns what it would have returned without it. *)
Theorem calls_with_other_arguments_are_independent
    (api_key : string) (net net' : string -> Response) (now now' : Z)
    (symbol symbol' : string) (interval interval' : option string) (w : World) :
  (symbol, interval) <> (symbol', interval') ->
  cache_read (snd (fetch' api_key net now symbol interval w)) (symbol', interval') now'
  = cache_read w (symbol', interval') now'
  /\ fst (fetch' api_key net' now' symbol' interval'
                 (snd (fetch' api_key net now symbol interval w)))
     = fst (fetch' api_key net' now' symbol' interval' w).
Proof.
  intros Hne.
  assert (Hread : cache_read (snd (fetch' api_key net now symbol interval w))
                             (symbol', interval') now'
                  = cache_read w (symbol', interval') now').
  { unfold get_stock_data_with.
    destruct (cache_read w (symbol, interval) now) as [e|]; cbn [snd]; [reflexivity|].
    unfold cache_read. cbn [cache]. rewrite lookup_insert_ne by exact Hne. reflexivity. }
  split; [exact Hread|].
  unfold get_stock_data_with at 1 3. rewrite Hread.
  destruct (cache_read w (symbol', interval') now'); reflexivity.
Qed.

Lemma fetch_empty_records
    (api_key : string) (net : string -> Response) (now : Z) (symbol : string)
    (interval : option string) (w : World)
    (status : Z) (data : Payload) (k : string) (ts : TimeSeries) :
  key_not_set api_key = false ->
  cache_read w (symbol, interval) now = None ->
  net (query_url api_key symbol (default default_interval interval))
    = Responded status data ->
  ~ (400 <= status < 600)%Z ->
  dict_in "Time Series (5min)" data = true ->
  time_series_key data = Some k ->
  dict_get k data = Some (VSeries ts) ->
  Forall (fun item : string * Bar => snd item = []) ts ->
  Forall (fun item : string * Bar => label_ok datetime_of_str (fst item) = true) ts ->
  fst (fetch' api_key net now symbol interval w)
  = Some (mkDataFrame []
            (sort_rows (map (fun item : string * Bar =>
                               (stamp datetime_of_str (fst item), [])) ts)))
  /\ screen (snd (fetch' api_key net now symbol interval w)) = screen w.
Proof.
  intros Hkey Hmiss Hnet Hst H5 Hk Hts Hempty Hlabels.
  assert (Hok : series_ok float_of_str datetime_of_str ts = true).
  { unfold series_ok. apply forallb_forall. intros item Hin.
    apply list_elem_of_In in Hin. rewrite Forall_forall in Hempty, Hlabels.
    unfold entry_ok. rewrite (Hlabels item Hin), (Hempty item Hin). reflexivity. }
  rewrite (cache_miss _ _ _ _ _ _ _ _ Hmiss). cbn [fst snd screen].
  rewrite (run_series _ _ _ _ _ _ _ _ _ _ Hkey Hnet Hst H5 Hk Hts), Hok.
  cbn [returned shown]. unfold converted_rows.
  rewrite (empty_records_no_columns ts Hempty). cbn [map].
  split; [reflexivity|apply app_nil_r].
Qed.

(** X9.  A series whose records are all empty (the empty mapping among
    them) and whose labels are all dates is not an error for
    [get_stock_data]: with a key that passes the guard the call returns a
    frame, not [None], and shows nothing.  The frame has no column and
    one row per entry of the series: no row when the series is the empty
    mapping. *)
Theorem empty_records_give_frame_without_columns
    (api_key : string) (net : string -> Response) (now : Z) (symbol : string)
    (interval : option string) (w : World)
    (status : Z) (data : Payload) (k : string) (ts : TimeSeries) :
  key_not_set api_key = false ->
  cache_read w (symbol, interval) now = None ->
  net (query_url api_key symbol (default default_interval interval))
    = Responded status data ->
  ~ (400 <= status < 600)%Z ->
  dict_in "Time Series (5min)" data = true ->
  time_series_key data = Some k ->
  dict_get k data = Some (VSeries ts) ->
  dict_wf ts ->
  Forall (fun item : string * Bar => snd item = []) ts ->
  Forall (fun item : string * Bar => label_ok datetime_of_str (fst item) = true) ts ->
  exists df : Quotes,
    fst (fetch' api_key net now symbol interval w) = Some df
    /\ columns df = []
    /\ length (rows df) = length ts
    /\ (ts = [] -> df = mkDataFrame [] [])
    /\ screen (snd (fetch' api_key net now symbol interval w)) = screen w.
Proof.
  intros Hkey Hmiss Hnet Hst H5 Hk Hts _ Hempty Hlabels.
  destruct (fetch_empty_records api_key net now symbol interval w status data k ts
              Hkey Hmiss Hnet Hst H5 Hk Hts Hempty Hlabels) as [Hret Hscreen].
  eexists. split; [exact Hret|]. cbn [columns rows].
  split; [reflexivity|]. split; [rewrite sort_rows_length; apply length_map|].
  split; [intros ->; reflexivity|exact Hscreen].
Qed.

End CacheAndClassification.

(** * Properties of the page *)

Lemma upper_char_idempotent (c : ascii) : upper_char (upper_char c) = upper_char c.
Proof. destruct c as [[] [] [] [] [] [] [] []]; reflexivity. Qed.

Lemma upper_idempotent (s : string) : upper (upper s) = upper s.
Proof.
  induction s as [|c s IH]; simpl; [reflexivity|].
  rewrite upper_char_idempotent, IH. reflexivity.
Qed.

Lemma upper_empty (s : string) : upper s = "" <-> s = "".
Proof. destruct s; simpl; split; intros H; try reflexivity; discriminate. Qed.

Lemma loc_inr {A : Type} (c : string) (cols : list string) (cells : list A) (v : A) :
  loc c cols cells = inr v <-> selected c cols cells = [v].
Proof.
  unfold loc. destruct (selected c cols cells) as [|a [|b l]]; split; intros H;
    try discriminate; congruence.
Qed.

Section Rendering.

Context {F : Type}.
Variable int_of_float : F -> option Z.

Local Abbreviation show_result' := (show_result int_of_float).
Local Abbreviation price_metrics' := (price_metrics (F:=F)).
Local Abbreviation volume_metric' := (volume_metric int_of_float).

Lemma price_metrics_None (ms : list (string * string)) (cols : list string)
    (latest : list (option F)) :
  snd (price_metrics' ms cols latest) = None
  <-> forall m, In m ms -> exists v, selected (snd m) cols latest = [v].
Proof.
  induction ms as [|m ms IH]; simpl.
  - split; [intros _ m []|reflexivity].
  - destruct (loc (snd m) cols latest) as [e|v] eqn:E; cbn [snd].
    + split; [discriminate|]. intros H.
      destruct (H m (or_introl eq_refl)) as [v Hv].
      apply loc_inr in Hv. congruence.
    + rewrite IH. apply loc_inr in E. split.
      * intros H m' [<-|Hin]; eauto.
      * intros H m' Hin. apply H. right. exact Hin.
Qed.

Lemma price_metrics_widgets (ms : list (string * string)) (cols : list string)
    (latest : list (option F)) :
  Forall is_metric (fst (price_metrics' ms cols latest)).
Proof.
  induction ms as [|m ms IH]; simpl; [constructor|].
  destruct (loc (snd m) cols latest); cbn [fst]; [constructor|].
  constructor; [unfold is_metric; eauto|exact IH].
Qed.

Lemma volume_metric_None (cols : list string) (latest : list (option F)) :
  snd (volume_metric' cols latest) = None
  <-> exists f n, selected "volume" cols latest = [Some f] /\ int_of_float f = Some n.
Proof.
  unfold volume_metric.
  destruct (loc "volume" cols latest) as [e|[f|]] eqn:E; cbn [snd].
  - split; [discriminate|]. intros (f & n & Hsel & _).
    apply loc_inr in Hsel. congruence.
  - apply loc_inr in E. destruct (int_of_float f) as [n|] eqn:En; cbn [snd].
    + split; [eauto|reflexivity].
    + split; [discriminate|]. intros (f' & n & Hsel & Hn). congruence.
  - apply loc_inr in E. split; [discriminate|].
    intros (f & n & Hsel & _). congruence.
Qed.

Lemma volume_metric_widgets (cols : list string) (latest : list (option F)) :
  Forall is_metric (fst (volume_metric' cols latest)).
Proof.
  unfold volume_metric.
  destruct (loc "volume" cols latest) as [e|[f|]]; cbn [fst]; try constructor.
  destruct (int_of_float f); cbn [fst]; [|constructor].
  constructor; [unfold is_metric; eauto|constructor].
Qed.

(** X14.  For a frame that is not empty, the script runs to its end
    exactly when the latest row has one and only one cell under each of
    "open", "high", "low", "close" and "volume" and [int] accepts that
    volume (it is a number, not a missing cell); then it shows ten
    widgets.  Otherwise an exception ends it after the metrics shown so
    far: neither the chart nor the table is shown. *)
Theorem page_completes_exactly_when
    (chart : ChartType) (volume : bool) (symbol : string)
    (df : Quotes) (latest : Z * list (option F)) :
  last (rows df) = Some latest ->
  columns df <> [] ->
  (raised (show_result' chart volume symbol (Some df)) = None
   <-> (forall c, In c ["open"; "high"; "low"; "close"] ->
                  exists v, selected c (columns df) (snd latest) = [v])
       /\ exists f n, selected "volume" (columns df) (snd latest) = [Some f]
                      /\ int_of_float f = Some n)
  /\ (raised (show_result' chart volume symbol (Some df)) = None ->
      length (widgets (show_result' chart volume symbol (Some df))) = 10%nat)
  /\ (raised (show_result' chart volume symbol (Some df)) <> None ->
      Forall (fun wd => wd = subheader "Current Financial Indicators" \/ is_metric wd)
             (widgets (show_result' chart volume symbol (Some df)))).
Proof.
  intros Hlast Hcols. unfold show_result. rewrite Hlast.
  destruct (columns df) as [|c0 cols0] eqn:Ecols; [exfalso; apply Hcols; reflexivity|].
  rewrite <- Ecols.
  unfold show_data.
  pose proof (price_metrics_None price_labels (columns df) (snd latest)) as Hp.
  pose proof (price_metrics_widgets price_labels (columns df) (snd latest)) as Hpw.
  pose proof (volume_metric_None (columns df) (snd latest)) as Hv.
  pose proof (volume_metric_widgets (columns df) (snd latest)) as Hvw.
  assert (Hlabels : (forall m, In m price_labels ->
                       exists v, selected (snd m) (columns df) (snd latest) = [v])
                    <-> (forall c, In c ["open"; "high"; "low"; "close"] ->
                           exists v, selected c (columns df) (snd latest) = [v])).
  { split.
    - intros H c Hc. simpl in Hc.
      destruct Hc as [<-|[<-|[<-|[<-|[]]]]];
        [apply (H ("Open", "open"))|apply (H ("High", "high"))
        |apply (H ("Low", "low"))|apply (H ("Close", "close"))]; simpl; tauto.
    - intros H m Hm. apply H. simpl in Hm.
      destruct Hm as [<-|[<-|[<-|[<-|[]]]]]; simpl; tauto. }
  rewrite Hlabels in Hp.
  destruct (snd (price_metrics' price_labels (columns df) (snd latest))) as [e|] eqn:Ep;
    cbn [raised widgets].
  - split; [|split].
    + split; [discriminate|]. intros [H _]. apply Hp in H. discriminate.
    + discriminate.
    + intros _. constructor; [left; reflexivity|].
      eapply Forall_impl; [exact Hpw|]. intros wd Hwd. right. exact Hwd.
  - destruct (snd (volume_metric' (columns df) (snd latest))) as [e|] eqn:Ev;
      cbn [raised widgets].
    + split; [|split].
      * split; [discriminate|]. intros [_ H]. apply Hv in H. discriminate.
      * discriminate.
      * intros _. constructor; [left; reflexivity|].
        apply Forall_app. split; (eapply Forall_impl; [eassumption|]);
          intros wd Hwd; right; exact Hwd.
    + split; [|split].
      * split; [|reflexivity]. intros _. split; [apply Hp|apply Hv]; reflexivity.
      * intros _. clear -Ep Ev. cbn [length]. rewrite !length_app. cbn [length].
        assert (Hlp : length (fst (price_metrics' price_labels (columns df) (snd latest)))
                      = 4%nat).
        { revert Ep. unfold price_labels. cbn [price_metrics fst snd].
          repeat (match goal with
                  | |- context [loc ?c ?cols ?cells] => destruct (loc c cols cells)
                  end; cbn [fst snd]; try discriminate).
          reflexivity. }
        assert (Hlv : length (fst (volume_metric' (columns df) (snd latest))) = 1%nat).
        { revert Ev. unfold volume_metric.
          destruct (loc "volume" (columns df) (snd latest)) as [e|[f|]];
            cbn [fst snd]; try discriminate.
          destruct (int_of_float f); cbn [fst snd]; [reflexivity|discriminate]. }
        rewrite Hlp, Hlv. reflexivity.
      * intros H. contradiction.
Qed.

End Rendering.

Section PageFacts.

Context {F : Type}.
Variable float_of_str : string -> option F.
Variable datetime_of_str : string -> option Z.
Variable int_of_float : F -> option Z.

Local Abbreviation dashboard_with' :=
  (dashboard_with float_of_str datetime_of_str int_of_float).
Local Abbreviation dashboard' := (dashboard float_of_str datetime_of_str int_of_float).

(** X10.  As shipped, the page never shows data: from a world in which
    nothing was requested and the cache holds no frame, a run of the
    script shows the info line when the text box is empty and otherwise
    the header and the no-data warning for the upper-cased symbol; it
    ends without exception, requests nothing and leaves such a world
    behind, whatever the inputs, the network and the clock. *)
Theorem shipped_page_never_shows_data
    (inputs : Inputs) (net : string -> Response) (now : Z) (w : World) :
  quiet w ->
  fst (dashboard' inputs net now w)
  = mkPage (if String.eqb (upper (symbol_text inputs)) ""
            then [enter_symbol_info]
            else [header (upper (symbol_text inputs));
                  no_data_warning (upper (symbol_text inputs))])
           None
  /\ network (snd (dashboard' inputs net now w)) = []
  /\ quiet (snd (dashboard' inputs net now w)).
Proof.
  intros Hq. unfold dashboard, dashboard_with.
  destruct (String.eqb (upper (symbol_text inputs)) ""); cbn [fst snd].
  - split; [reflexivity|]. split; [apply Hq|exact Hq].
  - destruct (shipped_step float_of_str datetime_of_str net now
                (upper (symbol_text inputs)) None w Hq) as [Hret Hq'].
    unfold get_stock_data in Hret, Hq'. rewrite Hret. cbn [show_result widgets raised].
    split; [reflexivity|]. split; [apply Hq'|exact Hq'].
Qed.

(** X11.  With an empty text box the script shows only the info line and
    touches neither cache nor network nor screen; with any other text it
    shows the header for the upper-cased text first and leaves a cache
    entry under that symbol and no interval. *)
Theorem page_fetches_unless_text_is_empty
    (api_key : string) (inputs : Inputs) (net : string -> Response) (now : Z)
    (w : World) :
  (symbol_text inputs = "" ->
   dashboard_with' api_key inputs net now w = (mkPage [enter_symbol_info] None, w))
  /\ (symbol_text inputs <> "" ->
      (exists rest, widgets (fst (dashboard_with' api_key inputs net now w))
                    = header (upper (symbol_text inputs)) :: rest)
      /\ is_Some (cache (snd (dashboard_with' api_key inputs net now w))
                    !! (upper (symbol_text inputs), None))).
Proof.
  unfold dashboard_with. split.
  - intros ->. reflexivity.
  - intros Hne.
    destruct (String.eqb (upper (symbol_text inputs)) "") eqn:E.
    + apply String.eqb_eq in E. apply (proj1 (upper_empty _)) in E. contradiction.
    + cbn [fst snd widgets]. split; [eauto|].
      unfold get_stock_data_with.
      destruct (cache_read w (upper (symbol_text inputs), None) now) as [e|] eqn:Hread;
        cbn [snd cache].
      * apply cache_read_Some in Hread as [Hread _]. rewrite Hread. eauto.
      * rewrite lookup_insert_eq. eauto.
Qed.

(** X12.  The page does not depend on the case of the ASCII letters of
    the text: a text and its upper-casing give the same page and the
    same world (same header, same cache entry, same request). *)
Theorem page_ignores_case
    (api_key : string) (text : string) (chart : ChartType) (volume : bool)
    (net : string -> Response) (now : Z) (w : World) :
  dashboard_with' api_key (mkInputs text chart volume) net now w
  = dashboard_with' api_key (mkInputs (upper text) chart volume) net now w.
Proof.
  unfold dashboard_with. cbn [symbol_text chart_type show_volume].
  rewrite upper_idempotent. reflexivity.
Qed.

(** X16.  A payload whose series has only empty records (the empty
    mapping among them), with labels that are dates, reaches the user as
    the plain no-data warning: the frame returned has no column, so it is
    empty for line 101, and with a key that passes the guard the page
    shows the header and that warning, ends without exception, and no
    error element is added to the screen. *)
Theorem empty_records_show_no_data_warning
    (api_key : string) (inputs : Inputs) (net : string -> Response) (now : Z)
    (w : World) (status : Z) (data : Payload) (k : string) (ts : TimeSeries) :
  symbol_text inputs <> "" ->
  key_not_set api_key = false ->
  cache_read w (upper (symbol_text inputs), None) now = None ->
  net (query_url api_key (upper (symbol_text inputs)) default_interval)
    = Responded status data ->
  ~ (400 <= status < 600)%Z ->
  dict_in "Time Series (5min)" data = true ->
  time_series_key data = Some k ->
  dict_get k data = Some (VSeries ts) ->
  Forall (fun item : string * Bar => snd item = []) ts ->
  Forall (fun item : string * Bar => label_ok datetime_of_str (fst item) = true) ts ->
  fst (dashboard_with' api_key inputs net now w)
  = mkPage [header (upper (symbol_text inputs));
            no_data_warning (upper (symbol_text inputs))] None
  /\ screen (snd (dashboard_with' api_key inputs net now w)) = screen w.
Proof.
  intros Hne Hkey Hmiss Hnet Hst H5 Hk Hts Hempty Hlabels.
  destruct (fetch_empty_records float_of_str datetime_of_str api_key net now
              (upper (symbol_text inputs)) None w status data k ts
              Hkey Hmiss Hnet Hst H5 Hk Hts Hempty Hlabels) as [Hret Hscreen].
  unfold dashboard_with.
  destruct (String.eqb (upper (symbol_text inputs)) "") eqn:E.
  - apply String.eqb_eq in E. apply (proj1 (upper_empty _)) in E. contradiction.
  - cbn [fst snd]. rewrite Hret, Hscreen. split; [|reflexivity].
    unfold show_result. cbn [rows columns].
    destruct (last _); reflexivity.
Qed.

End PageFacts.

(** ** The page on a payload of the provider's shape *)

Lemma union_all_same (ls : list (list string)) (p : list string) :
  ls <> [] ->
  (forall l, In l ls -> l = p) ->
  fold_left add_new p [] = p ->
  fold_left add_new p p = p ->
  union_all ls = p.
Proof.
  intros Hne Hall H0 H1. destruct ls as [|l ls]; [contradiction|].
  unfold union_all. cbn [fold_left].
  rewrite (Hall l (or_introl eq_refl)), H0.
  assert (Hrest : forall l', In l' ls -> l' = p)
    by (intros l' Hin; apply Hall; right; exact Hin).
  clear Hall Hne. induction ls as [|l' ls IH]; [reflexivity|].
  cbn [fold_left]. rewrite (Hrest l' (or_introl eq_refl)), H1.
  apply IH. intros l'' Hin. apply Hrest. right. exact Hin.
Qed.

Lemma union_columns_standard (ts : TimeSeries) :
  ts <> [] ->
  (forall item, In item ts -> keys (snd item) = provider_names) ->
  union_columns ts = provider_names.
Proof.
  intros Hne Hall. unfold union_columns. apply union_all_same.
  - destruct ts; [contradiction|discriminate].
  - intros l Hl. apply in_map_iff in Hl as (item & <- & Hin). exact (Hall item Hin).
  - reflexivity.
  - reflexivity.
Qed.

Lemma sort_rows_last {A : Type} (l : list (Z * A)) :
  l <> [] -> exists r, last (sort_rows l) = Some r /\ In r l.
Proof.
  intros Hne.
  destruct (last (sort_rows l)) as [r|] eqn:E.
  - exists r. split; [reflexivity|].
    eapply Permutation_in; [apply sort_rows_perm|].
    apply list_elem_of_In. eapply last_Some_elem_of, E.
  - apply last_None in E. pose proof (sort_rows_length l) as Hlen.
    rewrite E in Hlen. destruct l; [contradiction|discriminate].
Qed.

Section ProviderShape.

Context {F : Type}.
Variable float_of_str : string -> option F.
Variable datetime_of_str : string -> option Z.
Variable int_of_float : F -> option Z.

Local Abbreviation fetch' := (get_stock_data_with float_of_str datetime_of_str).
Local Abbreviation dashboard_with' :=
  (dashboard_with float_of_str datetime_of_str int_of_float).
Local Abbreviation stamp' := (stamp datetime_of_str).
Local Abbreviation price' := (fun bar field => float_cell float_of_str (dict_get field bar)).

(** X15.  With a key that passes the guard, a response that is not a
    4xx/5xx and a series that converts, is not empty and whose records
    all have exactly the five fields of the provider, with volumes [int]
    accepts, the page runs to its end and shows, after the header, the
    open, high, low, close and volume of the entry with the greatest
    parsed timestamp (whatever its place in the payload), then the chart
    of the returned frame and the table of its last ten rows. *)
Theorem page_shows_the_most_recent_bar
    (api_key : string) (inputs : Inputs) (net : string -> Response) (now : Z)
    (w : World) (status : Z) (data : Payload) (k : string) (ts : TimeSeries) :
  symbol_text inputs <> "" ->
  key_not_set api_key = false ->
  cache_read w (upper (symbol_text inputs), None) now = None ->
  net (query_url api_key (upper (symbol_text inputs)) default_interval)
    = Responded status data ->
  ~ (400 <= status < 600)%Z ->
  dict_in "Time Series (5min)" data = true ->
  time_series_key data = Some k ->
  dict_get k data = Some (VSeries ts) ->
  dict_wf ts ->
  series_ok float_of_str datetime_of_str ts = true ->
  ts <> [] ->
  (forall item, In item ts -> keys (snd item) = provider_names) ->
  (forall item f, In item ts -> price' (snd item) "5. volume" = Some f ->
                  is_Some (int_of_float f)) ->
  exists (df : Quotes) (label : string) (bar : Bar) (f : F) (n : Z),
    fst (fetch' api_key net now (upper (symbol_text inputs)) None w) = Some df
    /\ In (label, bar) ts
    /\ (forall label', In label' (keys ts) -> (stamp' label' <= stamp' label)%Z)
    /\ price' bar "5. volume" = Some f
    /\ int_of_float f = Some n
    /\ fst (dashboard_with' api_key inputs net now w)
       = mkPage [header (upper (symbol_text inputs));
                 subheader "Current Financial Indicators";
                 metric "Open" (Dollars (price' bar "1. open"));
                 metric "High" (Dollars (price' bar "2. high"));
                 metric "Low" (Dollars (price' bar "3. low"));
                 metric "Close" (Dollars (price' bar "4. close"));
                 metric "Volume" (Count n);
                 subheader "Historical Price Movement (5-minute intervals)";
                 plotly_chart (figure (chart_type inputs) (show_volume inputs)
                                      (upper (symbol_text inputs)) df);
                 subheader "Raw Data Preview (Last 10 entries)";
                 dataframe (mkDataFrame (columns df) (tail 10 (rows df)))]
                None.
Proof.
  intros Hne Hkey Hmiss Hnet Hst H5 Hk Hts Hwf Hok Hnonempty Hstd Hint.
  pose proof (union_columns_standard ts Hnonempty Hstd) as Hcols.
  (* the returned frame *)
  assert (Hfetch : fst (fetch' api_key net now (upper (symbol_text inputs)) None w)
                   = Some (mkDataFrame ["open"; "high"; "low"; "close"; "volume"]
                             (sort_rows (converted_rows float_of_str datetime_of_str ts)))).
  { rewrite (cache_miss _ _ _ _ _ _ _ _ Hmiss). cbn [fst].
    rewrite (run_series _ _ _ _ _ _ _ _ _ _ Hkey Hnet Hst H5 Hk Hts), Hok, Hcols.
    reflexivity. }
  (* the last row *)
  assert (Hrows : converted_rows float_of_str datetime_of_str ts <> []).
  { destruct ts; [contradiction|discriminate]. }
  destruct (sort_rows_last _ Hrows) as (latest & Hlast & Hin).
  unfold converted_rows in Hin.
  apply in_map_iff in Hin as ([label bar] & Hlatest & Hbar).
  rewrite Hcols in Hlatest.
  unfold provider_names in Hlatest. cbn [map fst snd] in Hlatest.
  (* the volume *)
  assert (Hvol : exists f, price' bar "5. volume" = Some f).
  { assert (Hkey5 : In "5. volume" (keys bar)).
    { pose proof (Hstd _ Hbar) as Hkeys. cbn [snd] in Hkeys. rewrite Hkeys.
      unfold provider_names. simpl. tauto. }
    apply dict_in_keys, dict_in_true in Hkey5 as [s Hs].
    unfold series_ok in Hok. rewrite forallb_forall in Hok.
    specialize (Hok _ Hbar). unfold entry_ok in Hok. cbn [fst snd] in Hok.
    apply andb_true_iff in Hok as [_ Hok].
    unfold bar_ok in Hok. rewrite forallb_forall in Hok.
    specialize (Hok "5. volume" (dict_get_in_keys _ _ _ Hs)).
    rewrite Hs in Hok. unfold float_cell. rewrite Hs. cbn. cbn in Hok.
    destruct (float_of_str s) as [f|]; [eauto|discriminate]. }
  destruct Hvol as [f Hf].
  destruct (Hint (label, bar) f Hbar Hf) as [n Hn].
  exists (mkDataFrame ["open"; "high"; "low"; "close"; "volume"]
            (sort_rows (converted_rows float_of_str datetime_of_str ts))),
         label, bar, f, n.
  split; [exact Hfetch|]. split; [exact Hbar|]. split; [|split; [exact Hf|split; [exact Hn|]]].
  - (* the greatest timestamp *)
    intros label' Hl'.
    assert (Hasc : ascending (map fst (sort_rows
                     (converted_rows float_of_str datetime_of_str ts))))
      by apply sort_rows_sorted.
    assert (Hlast' : last (map fst (sort_rows
                       (converted_rows float_of_str datetime_of_str ts)))
                     = Some (stamp' label))
      by (rewrite last_map, Hlast, <- Hlatest; reflexivity).
    pose proof (ascending_last _ _ Hasc Hlast') as Hall.
    rewrite Forall_forall in Hall. apply Hall. apply list_elem_of_In.
    eapply Permutation_in; [symmetry; apply Permutation_map, sort_rows_perm|].
    rewrite (converted_rows_index float_of_str). apply in_map. exact Hl'.
  - (* the page *)
    unfold dashboard_with.
    destruct (String.eqb (upper (symbol_text inputs)) "") eqn:E.
    { apply String.eqb_eq in E. apply (proj1 (upper_empty _)) in E. contradiction. }
    cbn [fst snd widgets raised]. rewrite Hfetch. unfold show_result.
    cbn [rows columns]. rewrite Hlast. unfold show_data. cbn [rows columns].
    rewrite <- Hlatest. cbn [snd]. unfold volume_metric.
    unfold price_labels, price_metrics, loc, selected. cbn.
    fold (price' bar "5. volume"). rewrite Hf, Hn. reflexivity.
Qed.

End ProviderShape.

(** ** The further properties at the sample payloads *)

Lemma payload_without_5min_key_is_classified_witness :
  fst (fetch_with other_key (always (Responded 200 payload_note_and_error)) 0
                  "AAPL" None start) = None
  /\ network (snd (fetch_with other_key (always (Responded 200 payload_note_and_error)) 0
                              "AAPL" None start)) = [url_AAPL_5min]
  /\ screen (snd (fetch_with other_key (always (Responded 200 payload_note_and_error)) 0
                             "AAPL" None start))
     = [st_error (ApiError (VStr "Invalid API call."))].
Proof.
  apply (payload_without_5min_key_is_classified decimal_of_str iso_datetime
           other_key (always (Responded 200 payload_note_and_error)) 0 "AAPL" None start
           200 payload_note_and_error).
  - reflexivity.
  - apply cache_read_start.
  - reflexivity.
  - lia.
  - reflexivity.
Defined.

Lemma cache_serves_for_an_hour_witness :
  fst (fetch_with other_key (always (Failed "down")) 1800 "AAPL" None
         (snd (fetch_with other_key (always (Responded 200 payload_5min)) 0
                          "AAPL" None start)))
  = fst (fetch_with other_key (always (Responded 200 payload_5min)) 0 "AAPL" None start)
  /\ fst (fetch_with other_key (always (Responded 200 payload_5min)) 0 "AAPL" None start)
     = Some frame_0935.
Proof.
  split; [|vm_compute; reflexivity].
  destruct (cache_serves_for_an_hour decimal_of_str iso_datetime
              other_key (always (Responded 200 payload_5min)) (always (Failed "down"))
              0 1800 "AAPL" None start (cache_read_start _ _)) as [Hwithin _].
  apply Hwithin. lia.
Defined.

Lemma hit_does_not_prolong_entry_witness :
  fst (fetch_with other_key (always (Responded 200 payload_two_bars)) 3600 "AAPL" None
         (snd (fetch_with other_key (always (Failed "down")) 3000 "AAPL" None
                 (snd (fetch_with other_key (always (Responded 200 payload_5min)) 0
                                  "AAPL" None start)))))
  = returned (run decimal_of_str iso_datetime other_key
                  (always (Responded 200 payload_two_bars)) "AAPL" "5min")
  /\ returned (run decimal_of_str iso_datetime other_key
                   (always (Responded 200 payload_two_bars)) "AAPL" "5min")
     = Some frame_two_bars.
Proof.
  split; [|vm_compute; reflexivity].
  apply (hit_does_not_prolong_entry decimal_of_str iso_datetime other_key
           (always (Responded 200 payload_5min)) (always (Failed "down"))
           (always (Responded 200 payload_two_bars)) 0 3000 3600 "AAPL" None start).
  - apply cache_read_start.
  - lia.
  - lia.
Defined.

Lemma calls_with_other_arguments_are_independent_witness :
  fst (fetch_with other_key (always (Responded 200 payload_5min)) 60 "AAPL" None
         (snd (fetch_with other_key (always (Failed "down")) 0 "MSFT" None start)))
  = fst (fetch_with other_key (always (Responded 200 payload_5min)) 60 "AAPL" None start).
Proof.
  apply (calls_with_other_arguments_are_independent decimal_of_str iso_datetime
           other_key (always (Failed "down")) (always (Responded 200 payload_5min))
           0 60 "MSFT" "AAPL" None None start).
  discriminate.
Defined.

Lemma series_two_empty_records_wf : dict_wf series_two_empty_records.
Proof. apply (bool_decide_unpack _). vm_compute. exact I. Qed.

Lemma empty_records_give_frame_without_columns_witness :
  exists df : Quotes,
    fst (fetch_with other_key (always (Responded 200 payload_two_empty_records)) 0
                    "AAPL" None start) = Some df
    /\ columns df = []
    /\ length (rows df) = 2%nat
    /\ (series_two_empty_records = [] -> df = mkDataFrame [] [])
    /\ screen (snd (fetch_with other_key (always (Responded 200 payload_two_empty_records))
                               0 "AAPL" None start)) = [].
Proof.
  apply (empty_records_give_frame_without_columns decimal_of_str iso_datetime
           other_key (always (Responded 200 payload_two_empty_records)) 0 "AAPL" None
           start 200 payload_two_empty_records "Time Series (5min)"
           series_two_empty_records).
  - reflexivity.
  - apply cache_read_start.
  - reflexivity.
  - lia.
  - reflexivity.
  - reflexivity.
  - reflexivity.
  - apply series_two_empty_records_wf.
  - repeat constructor.
  - repeat constructor.
Defined.

Lemma shipped_page_never_shows_data_witness :
  fst (page inputs_aapl (always (Responded 200 payload_5min)) 0 start)
  = mkPage [header "AAPL"; no_data_warning "AAPL"] None
  /\ network (snd (page inputs_aapl (always (Responded 200 payload_5min)) 0 start)) = [].
Proof.
  destruct (shipped_page_never_shows_data decimal_of_str iso_datetime int_of_decimal
              inputs_aapl (always (Responded 200 payload_5min)) 0 start
              (quiet_start (F:=Q))) as (Hpage & Hnet & _).
  split; [exact Hpage|exact Hnet].
Defined.

Lemma page_completes_exactly_when_witness :
  raised (show_result int_of_decimal Candlestick true "AAPL" (Some frame_two_bars)) = None
  /\ length (widgets (show_result int_of_decimal Candlestick true "AAPL"
                                  (Some frame_two_bars))) = 10%nat.
Proof.
  destruct (page_completes_exactly_when int_of_decimal Candlestick true "AAPL"
              frame_two_bars
              (timestamp 2024 1 2 9 40 0 0,
               [Some (51 # 5); Some (109 # 10); Some (101 # 10); Some (107 # 10);
                Some (2500 # 1)]%Q)
              eq_refl ltac:(discriminate)) as (Hiff & Hlen & _).
  assert (Hdone : raised (show_result int_of_decimal Candlestick true "AAPL"
                                      (Some frame_two_bars)) = None).
  { apply Hiff. split.
    - intros c Hc. cbn [In] in Hc.
      destruct Hc as [<-|[<-|[<-|[<-|[]]]]]; eexists; reflexivity.
    - eexists _, _. split; reflexivity. }
  split; [exact Hdone|exact (Hlen Hdone)].
Defined.

Lemma page_shows_the_most_recent_bar_witness :
  exists (df : Quotes) (label : string) (bar : Bar) (f : Q) (n : Z),
    fst (fetch_with other_key (always (Responded 200 payload_two_bars)) 0
                    "AAPL" None start) = Some df
    /\ In (label, bar) series_two_bars
    /\ (forall label', In label' (keys series_two_bars) ->
                       (stamp iso_datetime label' <= stamp iso_datetime label)%Z)
    /\ float_cell decimal_of_str (dict_get "5. volume" bar) = Some f
    /\ int_of_decimal f = Some n
    /\ fst (page_with other_key inputs_aapl (always (Responded 200 payload_two_bars)) 0
                      start)
       = mkPage [header "AAPL";
                 subheader "Current Financial Indicators";
                 metric "Open" (Dollars (float_cell decimal_of_str (dict_get "1. open" bar)));
                 metric "High" (Dollars (float_cell decimal_of_str (dict_get "2. high" bar)));
                 metric "Low" (Dollars (float_cell decimal_of_str (dict_get "3. low" bar)));
                 metric "Close" (Dollars (float_cell decimal_of_str (dict_get "4. close" bar)));
                 metric "Volume" (Count n);
                 subheader "Historical Price Movement (5-minute intervals)";
                 plotly_chart (figure Candlestick true "AAPL" df);
                 subheader "Raw Data Preview (Last 10 entries)";
                 dataframe (mkDataFrame (columns df) (tail 10 (rows df)))]
                None.
Proof.
  apply (page_shows_the_most_recent_bar decimal_of_str iso_datetime int_of_decimal
           other_key inputs_aapl (always (Responded 200 payload_two_bars)) 0 start
           200 payload_two_bars "Time Series (5min)" series_two_bars).
  - discriminate.
  - reflexivity.
  - apply cache_read_start.
  - reflexivity.
  - lia.
  - reflexivity.
  - reflexivity.
  - reflexivity.
  - apply sample_series_wf.
  - vm_compute. reflexivity.
  - discriminate.
  - intros item Hin. cbn [In series_two_bars] in Hin.
    destruct Hin as [<-|[<-|[]]]; reflexivity.
  - intros item f _ _. unfold int_of_decimal. eauto.
Defined.

Lemma empty_records_show_no_data_warning_witness :
  fst (page_with other_key inputs_aapl (always (Responded 200 payload_two_empty_records))
                 0 start)
  = mkPage [header "AAPL"; no_data_warning "AAPL"] None
  /\ screen (snd (page_with other_key inputs_aapl
                            (always (Responded 200 payload_two_empty_records)) 0 start))
     = [].
Proof.
  apply (empty_records_show_no_data_warning decimal_of_str iso_datetime int_of_decimal
           other_key inputs_aapl (always (Responded 200 payload_two_empty_records)) 0
           start 200 payload_two_empty_records "Time Series (5min)"
           series_two_empty_records).
  - discriminate.
  - reflexivity.
  - apply cache_read_start.
  - reflexivity.
  - lia.
  - reflexivity.
  - reflexivity.
  - reflexivity.
  - repeat constructor.
  - repeat constructor.
Defined.
